(** * Chat service: connection registry, history cache, event bridge and
    session protocol handlers of [backend/chat_service/app.py].

    The development is a shallow embedding: every Python function of the
    module that the verified statements talk about is transcribed as a Rocq
    function over an explicit service state (the two process-wide registry
    dictionaries, the Redis keyspace, the [chat_messages] table and the
    Socket.IO room table).  Emitted Socket.IO events are collected in a
    list, in program order. *)

From Stdlib Require Import ZArith Lia Bool List Sorted.
From Stdlib Require Import Strings.String Strings.Ascii.
From stdpp Require Import base option list gmap strings pretty.

Local Open Scope Z_scope.
Local Open Scope string_scope.
Local Open Scope list_scope.

(** ** Python built-ins used by the service *)

Module Py.

(** JSON scalars as they reach the handlers: [None], an [int] or a [str]. *)
Inductive scalar :=
| JNone
| JInt (n : Z)
| JStr (s : string).

#[global] Instance scalar_eq_dec : EqDecision scalar.
Proof. solve_decision. Defined.

(** [str(x)] *)
Definition str (x : scalar) : string :=
  match x with
  | JNone => "None"
  | JInt n => pretty n
  | JStr s => s
  end.

(** Truth value of [x] in a condition ([if x:], [x or y]). *)
Definition truthy (x : scalar) : bool :=
  match x with
  | JNone => false
  | JInt n => negb (n =? 0)%Z
  | JStr s => negb (String.eqb s "")
  end.

(** Truth value of an optional field read with [d.get(k)]: a missing key
    reads as [None]. *)
Definition truthy_opt (x : option scalar) : bool :=
  match x with
  | None => false
  | Some v => truthy v
  end.

Definition str_truthy (s : string) : bool := negb (String.eqb s "").

(** [s.startswith(p)] *)
Definition startswith (p s : string) : bool := String.prefix p s.

(** [l[i:]] for an arbitrary integer [i]. *)
Definition slice_from {A} (i : Z) (l : list A) : list A :=
  let n := Z.of_nat (length l) in
  let start := if (i <? 0)%Z then Z.max 0 (n + i) else Z.min i n in
  drop (Z.to_nat start) l.

(** [sorted(l, key=key)]: a stable sort; [leb] is the order of the keys.
    Python strings compare by code point, which on UTF-8 text is the
    byte-wise order of [String.leb]. *)
Section Sorted.
Context {A K : Type} (leb : K -> K -> bool) (key : A -> K).

Fixpoint insert_sorted (x : A) (l : list A) : list A :=
  match l with
  | [] => [x]
  | y :: l' =>
      if leb (key x) (key y) then x :: y :: l'
      else y :: insert_sorted x l'
  end.

Definition sorted (l : list A) : list A := foldr insert_sorted [] l.
End Sorted.

(** [l.remove(x)]: drops the first occurrence, raises [ValueError]
    ([None]) when there is none. *)
Fixpoint list_remove (x : string) (l : list string) : option (list string) :=
  match l with
  | [] => None
  | y :: l' =>
      if decide (y = x) then Some l'
      else cons y <$> list_remove x l'
  end.

(** [int(s)] on a [str], as CPython 3.11 computes it.  A [str] is held
    as its UTF-8 bytes and [code_points] reads the text back; bytes that
    are not UTF-8 are no [str] and convert to nothing.  A text with a code
    point above 127 is first transliterated
    ([_PyUnicode_TransformDecimalAndSpaceToASCII]): Unicode white space
    becomes a blank, a Unicode decimal digit its ASCII digit, any other
    code point from 127 on a question mark.  The literal is then read
    ([PyLong_FromString], base 10): white space, an optional sign, decimal
    digits where single underscores may separate digits, white space.
    White space is what C's [isspace] accepts, the bytes 9 to 13 and 32.
    Anything else, or more than 4300 digits, raises [ValueError]
    ([None]). *)
Definition byte (c : ascii) : Z := Z.of_N (N_of_ascii c).

Definition is_continuation (b : Z) : bool := ((128 <=? b)%Z && (b <=? 191)%Z)%bool.

Fixpoint code_points (s : list ascii) : option (list Z) :=
  match s with
  | [] => Some []
  | c0 :: s1 =>
      let b0 := byte c0 in
      if (b0 <? 128)%Z then cons b0 <$> code_points s1
      else if (b0 <? 224)%Z then
        match s1 with
        | c1 :: s2 =>
            let cp := ((b0 - 192) * 64 + (byte c1 - 128))%Z in
            if ((194 <=? b0)%Z && is_continuation (byte c1))%bool
            then cons cp <$> code_points s2
            else None
        | _ => None
        end
      else if (b0 <? 240)%Z then
        match s1 with
        | c1 :: c2 :: s3 =>
            let cp := (((b0 - 224) * 64 + (byte c1 - 128)) * 64 + (byte c2 - 128))%Z in
            if (is_continuation (byte c1) && is_continuation (byte c2)
                && (2048 <=? cp)%Z
                && negb ((55296 <=? cp)%Z && (cp <=? 57343)%Z))%bool
            then cons cp <$> code_points s3
            else None
        | _ => None
        end
      else
        match s1 with
        | c1 :: c2 :: c3 :: s4 =>
            let cp := ((((b0 - 240) * 64 + (byte c1 - 128)) * 64
                        + (byte c2 - 128)) * 64 + (byte c3 - 128))%Z in
            if (is_continuation (byte c1) && is_continuation (byte c2)
                && is_continuation (byte c3)
                && (65536 <=? cp)%Z && (cp <=? 1114111)%Z)%bool
            then cons cp <$> code_points s4
            else None
        | _ => None
        end
  end.

(** The code points above 127 for which [str.isspace] holds
    (Unicode 14.0, the database of CPython 3.11). *)
Definition unicode_spaces : list Z :=
  [ 133; 160; 5760; 8192; 8193; 8194; 8195; 8196; 8197; 8198; 8199; 8200;
    8201; 8202; 8232; 8233; 8239; 8287; 12288 ].

(** The digit zero of every run of ten Unicode decimal digits above 127
    (Unicode 14.0). *)
Definition decimal_zeros : list Z :=
  [ 1632; 1776; 1984; 2406; 2534; 2662; 2790; 2918; 3046; 3174; 3302; 3430;
    3558; 3664; 3792; 3872; 4160; 4240; 6112; 6160; 6470; 6608; 6784; 6800;
    6992; 7088; 7232; 7248; 42528; 43216; 43264; 43472; 43504; 43600;
    44016; 65296; 66720; 68912; 69734; 69872; 69942; 70096; 70384; 70736;
    70864; 71248; 71360; 71472; 71904; 72016; 72784; 73040; 73120; 92768;
    92864; 93008; 120782; 120792; 120802; 120812; 120822; 123200; 123632;
    125264; 130032 ].

(** [Py_UNICODE_TODECIMAL] above 127 *)
Definition to_decimal (cp : Z) : option Z :=
  (fun zero => cp - zero)%Z
  <$> List.find (fun zero => ((zero <=? cp)%Z && (cp <=? zero + 9)%Z)%bool)
                decimal_zeros.

Definition transliterate (cp : Z) : Z :=
  if (cp <? 127)%Z then cp
  else if existsb (Z.eqb cp) unicode_spaces then 32
  else match to_decimal cp with
       | Some d => 48 + d
       | None => 63
       end.

Definition is_space (c : Z) : bool :=
  (((9 <=? c)%Z && (c <=? 13)%Z) || (c =? 32)%Z)%bool.

Definition digit_val (c : Z) : option Z :=
  if ((48 <=? c)%Z && (c <=? 57)%Z)%bool then Some (c - 48) else None.

Fixpoint lstrip (s : list Z) : list Z :=
  match s with
  | c :: s' => if is_space c then lstrip s' else s
  | [] => []
  end.

(** [sys.get_int_max_str_digits()], which the service leaves at its
    default. *)
Definition max_str_digits : nat := 4300.

(** [digits acc count prev_digit s]: reads the digit run and what follows
    it; [count] digits were read so far, [prev_digit] tells whether the
    last character was a digit.  An underscore is only accepted between
    two digits; after the digits only white space may follow. *)
Fixpoint digits (acc : Z) (count : nat) (prev_digit : bool) (s : list Z)
    : option Z :=
  match s with
  | [] =>
      if (prev_digit && (count <=? max_str_digits)%nat)%bool then Some acc
      else None
  | c :: s' =>
      match digit_val c with
      | Some d => digits (10 * acc + d) (S count) true s'
      | None =>
          if (c =? 95)%Z then
            if prev_digit then digits acc count false s' else None
          else if (prev_digit && forallb is_space s
                   && (count <=? max_str_digits)%nat)%bool
          then Some acc
          else None
      end
  end.

Definition int (s : string) : option Z :=
  text ← code_points (list_ascii_of_string s);
  let text :=
    if forallb (fun cp => (cp <? 128)%Z) text then text
    else transliterate <$> text in
  match lstrip text with
  | [] => None
  | c :: rest =>
      if (c =? 45)%Z then Z.opp <$> digits 0 0 false rest
      else if (c =? 43)%Z then digits 0 0 false rest
      else digits 0 0 false (c :: rest)
  end.

End Py.

(** ** Connection registry: [user_sid_map] and [sid_user_map] *)

Record registry := mk_registry {
  user_sid_map : gmap string (list string);
  sid_user_map : gmap string string
}.

Definition empty_registry : registry := mk_registry ∅ ∅.

(** The registering tail of [handle_connect], once the token is decoded:
<<
    if user_id:
        if user_id not in user_sid_map:
            user_sid_map[user_id] = []
        user_sid_map[user_id].append(request.sid)
        sid_user_map[request.sid] = user_id
>> *)
Definition register (user_id sid : string) (r : registry) : registry :=
  if Py.str_truthy user_id then
    let conns := default [] (user_sid_map r !! user_id) in
    mk_registry (<[user_id := conns ++ [sid]]> (user_sid_map r))
                (<[sid := user_id]> (sid_user_map r))
  else r.

(** Decoded token as [verify_jwt] returns it: the claims [sub] and
    [user_id], each possibly missing. *)
Record jwt_claims := mk_claims {
  claim_sub : option Py.scalar;
  claim_user_id : option Py.scalar
}.

(** [str(decoded.get('sub', decoded.get('user_id', '')))] *)
Definition claims_user_id (d : jwt_claims) : string :=
  Py.str (default (default (Py.JStr "") (claim_user_id d)) (claim_sub d)).

(** [handle_connect]: [auth] is the outcome of token extraction followed by
    [verify_jwt]; [None] stands for a missing token or a failed decode, in
    which case the connection proceeds unregistered. *)
Definition handle_connect (auth : option jwt_claims) (sid : string)
    (r : registry) : registry :=
  match auth with
  | None => r
  | Some decoded => register (claims_user_id decoded) sid r
  end.

(** Outcome of a handler that may raise. *)
Inductive outcome (A : Type) :=
| Returned (a : A)
| Raised (exn : string).
Arguments Returned {A} a.
Arguments Raised {A} exn.

(** [handle_disconnect].  [list.remove] raises [ValueError] when the sid is
    not in the identity's list; nothing has been mutated at that point. *)
Definition handle_disconnect (sid : string) (r : registry) : outcome registry :=
  match sid_user_map r !! sid with
  | None => Returned r
  | Some user_id =>
      match user_sid_map r !! user_id with
      | Some conns =>
          match Py.list_remove sid conns with
          | None => Raised "ValueError"
          | Some [] =>
              Returned (mk_registry (delete user_id (user_sid_map r))
                                    (delete sid (sid_user_map r)))
          | Some conns' =>
              Returned (mk_registry (<[user_id := conns']> (user_sid_map r))
                                    (delete sid (sid_user_map r)))
          end
      | None =>
          Returned (mk_registry (user_sid_map r) (delete sid (sid_user_map r)))
      end
  end.

(** [resolve(connection)] *)
Definition resolve (sid : string) (r : registry) : option string :=
  sid_user_map r !! sid.

(** Live connections of an identity, in registration order. *)
Definition connections_of (user_id : string) (r : registry) : list string :=
  default [] (user_sid_map r !! user_id).

(** Sequences of registry operations; a handler that raises leaves the
    registry as it was (the transport logs the exception). *)
Inductive registry_op :=
| Connect (user_id sid : string)
| Disconnect (sid : string).

Definition exec_op (op : registry_op) (r : registry) : registry :=
  match op with
  | Connect u s => register u s r
  | Disconnect s =>
      match handle_disconnect s r with
      | Returned r' => r'
      | Raised _ => r
      end
  end.

Definition run_ops (ops : list registry_op) (r : registry) : registry :=
  foldl (fun r op => exec_op op r) r ops.

(** The symmetry invariant of the two maps. *)
Definition symmetric (r : registry) : Prop :=
  forall sid uid,
    sid_user_map r !! sid = Some uid <->
    exists conns, user_sid_map r !! uid = Some conns /\ sid ∈ conns.

(** Every [Connect] of the sequence uses a connection handle that is not
    registered at that moment, as the transport guarantees for the sids it
    issues. *)
Fixpoint fresh_connects (ops : list registry_op) (r : registry) : Prop :=
  match ops with
  | [] => True
  | op :: ops' =>
      match op with
      | Connect _ s => sid_user_map r !! s = None
      | Disconnect _ => True
      end /\ fresh_connects ops' (exec_op op r)
  end.

(** ** Messages and the library functions the service calls *)

(** A chat message as the dict that travels to clients and into the cache:
    the keys written by [ChatMessage.to_dict], and [authenticated], which
    [handle_chat_message] adds.  [msg_user_id] and [msg_timestamp] are read
    back with [dict.get], so a missing key ([None]) is told apart from a
    [null] value ([Some JNone]); a timestamp, when the key is there, is a
    string, as [to_dict] writes it. *)
Record message := mk_message {
  msg_id : Z;
  msg_meeting_id : Z;
  msg_user_id : option Py.scalar;
  msg_user_name : option string;
  msg_content : string;
  msg_timestamp : option string;
  msg_authenticated : option bool
}.

#[global] Instance message_eq_dec : EqDecision message.
Proof. solve_decision. Defined.

(** [d['authenticated'] = a]; [None] leaves the key out. *)
Definition set_authenticated (d : message) (a : option bool) : message :=
  mk_message (msg_id d) (msg_meeting_id d) (msg_user_id d) (msg_user_name d)
             (msg_content d) (msg_timestamp d) a.

(** The [json] and [datetime] functions of the Python library are taken as
    they are, one field each:
    - [json_dumps d] is [json.dumps(d)];
    - [json_loads s] is [json.loads(s)], [None] when it raises or when the
      text is not a message object;
    - [iso_timestamp s] is
      [datetime.fromisoformat(s.replace('Z', '+00:00')).timestamp()],
      [None] when it raises; the POSIX time is counted in microseconds, the
      resolution of [datetime], which orders scores as the floats do;
    - [isoformat t] is [t.isoformat()] for the [datetime] at [t]
      microseconds. *)
Record pylib := mk_pylib {
  json_dumps : message -> string;
  json_loads : string -> option message;
  iso_timestamp : string -> option Z;
  isoformat : Z -> string
}.

(** ** The Redis sorted sets behind the history cache *)

Module Redis.

(** A sorted set in rank order: ascending score, members of equal score
    in byte-wise order. *)
Definition zset := list (string * Z).

Definition entry_leb (a b : string * Z) : bool :=
  (a.2 <? b.2)%Z || ((a.2 =? b.2)%Z && String.leb a.1 b.1).

Fixpoint zinsert (e : string * Z) (z : zset) : zset :=
  match z with
  | [] => [e]
  | f :: z' => if entry_leb e f then e :: f :: z' else f :: zinsert e z'
  end.

(** [ZADD key score member]: a member already present is moved to its new
    score. *)
Definition zadd (member : string) (score : Z) (z : zset) : zset :=
  zinsert (member, score) (filter (fun e => e.1 <> member) z).

(** Rank bounds of [ZRANGE] and [ZREMRANGEBYRANK]: negative indexes count
    from the end; the result is the first rank and the number of ranks. *)
Definition rank_range (start stop : Z) (n : nat) : nat * nat :=
  let len := Z.of_nat n in
  let start := if (start <? 0)%Z then Z.max 0 (len + start) else start in
  let stop := if (stop <? 0)%Z then len + stop else stop in
  let stop := Z.min stop (len - 1) in
  if ((stop <? start)%Z || (len <=? start)%Z)%bool then (0%nat, 0%nat)
  else (Z.to_nat start, Z.to_nat (stop - start + 1)).

Definition zrange (start stop : Z) (z : zset) : list string :=
  let '(first, count) := rank_range start stop (length z) in
  (take count (drop first z)).*1.

Definition zremrangebyrank (start stop : Z) (z : zset) : zset :=
  let '(first, count) := rank_range start stop (length z) in
  take first z ++ drop (first + count) z.

(** The keyspace: sorted sets by key, and the time to live set by
    [EXPIRE], in seconds.  An absent key reads as the empty sorted set, and
    a sorted set that becomes empty is no longer a key.  No key expires
    during the operations modelled here. *)
Record db := mk_db {
  zsets : gmap string zset;
  ttl : gmap string Z
}.

Definition empty : db := mk_db ∅ ∅.

Definition get (key : string) (r : db) : zset := default [] (zsets r !! key).

Definition set (key : string) (z : zset) (r : db) : db :=
  match z with
  | [] => mk_db (delete key (zsets r)) (delete key (ttl r))
  | _ => mk_db (<[key := z]> (zsets r)) (ttl r)
  end.

Definition expire (key : string) (seconds : Z) (r : db) : db :=
  match zsets r !! key with
  | Some _ => mk_db (zsets r) (<[key := seconds]> (ttl r))
  | None => r
  end.

End Redis.

(** ** The history cache *)

Section Cache.
Context (L : pylib).

Definition history_key (room : string) : string := "chat:history:" +:+ room.

Definition user_key (room : string) (user_id : Py.scalar) : string :=
  "chat:user:" +:+ room +:+ ":" +:+ Py.str user_id.

(** [store_message_in_redis].  The body runs under [try]: a message
    without a [timestamp], or with one that does not parse, raises before
    the first Redis command and leaves the cache as it was. *)
Definition store_message_in_redis (room : string) (message_data : message)
    (r : Redis.db) : Redis.db :=
  let message_json := json_dumps L message_data in
  match msg_timestamp message_data ≫= iso_timestamp L with
  | None => r
  | Some timestamp =>
      let hkey := history_key room in
      let r := Redis.set hkey (Redis.zadd message_json timestamp (Redis.get hkey r)) r in
      let user_id := default Py.JNone (msg_user_id message_data) in
      let ukey := user_key room user_id in
      let r :=
        if Py.truthy user_id then
          let r := Redis.set ukey (Redis.zadd message_json timestamp (Redis.get ukey r)) r in
          Redis.expire ukey (60 * 60 * 24 * 7) r
        else r in
      let r := Redis.expire hkey (60 * 60 * 24 * 30) r in
      let r := Redis.set hkey (Redis.zremrangebyrank 0 (-501) (Redis.get hkey r)) r in
      if Py.truthy user_id then
        Redis.set ukey (Redis.zremrangebyrank 0 (-101) (Redis.get ukey r)) r
      else r
  end.

(** [[json.loads(msg.decode('utf-8')) for msg in messages_json]]: [None]
    when one of the members raises. *)
Definition parse_all (messages_json : list string) : option (list message) :=
  mapM (json_loads L) messages_json.

(** [get_chat_history]: any exception yields the empty list. *)
Definition get_chat_history (room : string) (limit : Z) (r : Redis.db)
    : list message :=
  let messages_json := Redis.zrange (- limit) (-1) (Redis.get (history_key room) r) in
  default [] (parse_all messages_json).

(** [msg.get('user_id', 'system')] *)
Definition sender_key (msg : message) : Py.scalar :=
  default (Py.JStr "system") (msg_user_id msg).

(** [x.get('timestamp', '')] *)
Definition timestamp_key (x : message) : string :=
  default "" (msg_timestamp x).

(** The dict [user_messages], in insertion order of its keys. *)
Fixpoint group_append (k : Py.scalar) (msg : message)
    (g : list (Py.scalar * list message)) : list (Py.scalar * list message) :=
  match g with
  | [] => [(k, [msg])]
  | (k', msgs) :: g' =>
      if decide (k' = k) then (k', msgs ++ [msg]) :: g'
      else (k', msgs) :: group_append k msg g'
  end.

Definition group_by_user (all_messages : list message)
    : list (Py.scalar * list message) :=
  foldl (fun g msg => group_append (sender_key msg) msg g) [] all_messages.

Definition sort_by_timestamp : list message -> list message :=
  Py.sorted String.leb timestamp_key.

(** [get_chat_history_with_user_limit] *)
Definition get_chat_history_with_user_limit (room : string)
    (global_limit per_user_limit : Z) (r : Redis.db) : list message :=
  match parse_all (Redis.zrange (-1000) (-1) (Redis.get (history_key room) r)) with
  | None => []
  | Some all_messages =>
      let user_messages := group_by_user all_messages in
      let limited_messages :=
        flat_map (fun '(_, messages) =>
                    Py.slice_from (- per_user_limit) (sort_by_timestamp messages))
                 user_messages in
      let limited_messages := sort_by_timestamp limited_messages in
      if (global_limit <? Z.of_nat (length limited_messages))%Z
      then Py.slice_from (- global_limit) limited_messages
      else limited_messages
  end.
End Cache.

(** ** The [chat_messages] table *)

Module ChatMessage.

Record t := mk {
  id : Z;
  meeting_id : Z;
  user_id : option Z;
  guest_user_id : option string;
  user_name : option string;
  content : string;
  timestamp : Z
}.

(** [self.guest_user_id if self.guest_user_id else self.user_id] *)
Definition user_identifier (self : t) : Py.scalar :=
  match guest_user_id self with
  | Some g => if Py.str_truthy g then Py.JStr g
              else from_option Py.JInt Py.JNone (user_id self)
  | None => from_option Py.JInt Py.JNone (user_id self)
  end.

Definition to_dict (L : pylib) (self : t) : message :=
  {| msg_id := id self;
     msg_meeting_id := meeting_id self;
     msg_user_id := Some (user_identifier self);
     msg_user_name := user_name self;
     msg_content := content self;
     msg_timestamp := Some (isoformat L (timestamp self) +:+ "Z");
     msg_authenticated := None |}.

End ChatMessage.

(** The table with the session of the ORM: [session_new] holds the rows
    added and not yet committed.  A commit gives each pending row its
    serial [id] and the column default [utcnow()] as [timestamp]. *)
Record database := mk_database {
  chat_messages : list ChatMessage.t;
  session_new : list ChatMessage.t;
  next_id : Z
}.

Definition empty_database : database := mk_database [] [] 1.

Definition session_add (row : ChatMessage.t) (d : database) : database :=
  mk_database (chat_messages d) (session_new d ++ [row]) (next_id d).

Definition session_rollback (d : database) : database :=
  mk_database (chat_messages d) [] (next_id d).

Fixpoint flush (now : Z) (next : Z) (pending : list ChatMessage.t)
    : list ChatMessage.t :=
  match pending with
  | [] => []
  | row :: pending' =>
      ChatMessage.mk next (ChatMessage.meeting_id row) (ChatMessage.user_id row)
        (ChatMessage.guest_user_id row) (ChatMessage.user_name row)
        (ChatMessage.content row) now
      :: flush now (next + 1) pending'
  end.

(** [db.session.commit()]; [accepted] is the verdict of the database on
    the pending rows (constraints, connectivity): when it refuses, the
    commit raises and the session keeps its pending rows until it is
    rolled back. *)
Definition session_commit (accepted : bool) (now : Z) (d : database)
    : outcome database :=
  if accepted then
    Returned (mk_database
                (chat_messages d ++ flush now (next_id d) (session_new d))
                []
                (next_id d + Z.of_nat (length (session_new d))))
  else Raised "SQLAlchemyError".

(** [ChatMessage.query.filter_by(meeting_id=m).order_by(timestamp.asc())
    .limit(limit).all()]; rows of equal timestamp stay in table order.
    PostgreSQL takes [LIMIT] as a 64-bit integer that is not negative and
    refuses any other value. *)
Definition query_history (m : Z) (limit : Z) (d : database)
    : outcome (list ChatMessage.t) :=
  if ((limit <? 0)%Z || (2 ^ 63 <=? limit)%Z)%bool then Raised "DataError"
  else
    Returned
      (take (Z.to_nat limit)
         (Py.sorted Z.leb ChatMessage.timestamp
            (filter (fun row => ChatMessage.meeting_id row = m) (chat_messages d)))).

(** ** Socket.IO events sent by the service *)

(** A JSON value that is only passed through: [None] is Python's [None],
    [Some text] any other value, as its JSON text. *)
Definition raw := option string.

(** The dict of a [meeting_update] or [meeting_invitation] notification;
    an optional field is a key that some shapes do not carry. *)
Record notification := mk_notification {
  n_meeting_id : Py.scalar;
  n_title : Py.scalar;
  n_message : Py.scalar;
  n_timestamp : Py.scalar;
  n_status : option Py.scalar;
  n_meeting_details : option raw;
  n_changes : option raw;
  n_participant_id : option Py.scalar;
  n_user_id : option Py.scalar;
  n_sender_id : option string
}.

Inductive payload :=
| PError (error : string)
| PChatMessage (message_data : message)
| PChatHistory (meeting_id : string) (messages : list message)
| PPresence (user_id : Py.scalar) (user_name room : string) (authenticated : bool)
| PNotification (n : notification).

(** One call of [emit(event, data, to=..., include_self=False)]: [em_to] is
    the room or the sid addressed, [em_skip_sid] the sender left out. *)
Record emission := mk_emission {
  em_event : string;
  em_payload : payload;
  em_to : string;
  em_skip_sid : option string
}.

Definition emit (event : string) (data : payload) (to : string) : emission :=
  mk_emission event data to None.

(** ** The service state *)

Record state := mk_state {
  st_registry : registry;
  st_redis : Redis.db;
  st_db : database;
  st_rooms : gmap string (gset string)
}.

Definition initial_state : state :=
  mk_state empty_registry Redis.empty empty_database ∅.

Definition members_of (room : string) (st : state) : gset string :=
  default ∅ (st_rooms st !! room).

(** ** Event bridge: [handle_redis_message] *)

(** The decoded event: the keys the bridge reads.  [ev_participant_ids]
    is a list when present. *)
Record bus_event := mk_bus_event {
  ev_event_type : option string;
  ev_meeting_id : option Py.scalar;
  ev_title : option Py.scalar;
  ev_timestamp : option Py.scalar;
  ev_meeting : raw;
  ev_changes : raw;
  ev_participant_ids : option (list Py.scalar);
  ev_invited_user_id : option Py.scalar;
  ev_new_status : option Py.scalar;
  ev_user_id : option Py.scalar
}.

(** A pub/sub message: [pm_data] is [json.loads] of its body, [None] when
    decoding raises. *)
Record pubsub_message := mk_pubsub_message {
  pm_type : string;
  pm_channel : string;
  pm_data : option bus_event
}.

Definition get_or_none (x : option Py.scalar) : Py.scalar := default Py.JNone x.

Definition deleted_notification (data : bus_event) (meeting_id : Py.scalar)
    (text : string) : notification :=
  {| n_meeting_id := meeting_id;
     n_title := default (Py.JStr "Meeting Deleted") (ev_title data);
     n_message := Py.JStr text;
     n_timestamp := get_or_none (ev_timestamp data);
     n_status := Some (Py.JStr "deleted");
     n_meeting_details := None; n_changes := None;
     n_participant_id := None; n_user_id := None; n_sender_id := None |}.

Definition handle_redis_message (message : pubsub_message) (r : registry)
    : list emission :=
  if negb (String.eqb (pm_type message) "message") then []
  else
    match pm_data message with
    | None => []
    | Some data =>
        let event_type := ev_event_type data in
        let meeting_id := get_or_none (ev_meeting_id data) in
        if negb (Py.truthy meeting_id) then []
        else
          let room_name := Py.str meeting_id in
          if decide (event_type = Some "meeting_created") then []
          else if decide (event_type = Some "meeting_updated") then
            [emit "meeting_update"
               (PNotification
                  {| n_meeting_id := meeting_id;
                     n_title := default (Py.JStr "Meeting Updated") (ev_title data);
                     n_message := Py.JStr "The meeting details have been updated";
                     n_timestamp := get_or_none (ev_timestamp data);
                     n_status := None;
                     n_meeting_details := Some (ev_meeting data);
                     n_changes := Some (ev_changes data);
                     n_participant_id := None; n_user_id := None;
                     n_sender_id := None |})
               room_name]
          else if decide (event_type = Some "meeting_deleted") then
            emit "meeting_update"
              (PNotification
                 (deleted_notification data meeting_id "This meeting has been canceled"))
              room_name
            :: flat_map
                 (fun user_id =>
                    match user_sid_map r !! Py.str user_id with
                    | Some sids =>
                        map (fun sid =>
                               emit "meeting_update"
                                 (PNotification
                                    (deleted_notification data meeting_id
                                       "A meeting you were invited to has been canceled"))
                                 sid)
                            sids
                    | None => []
                    end)
                 (default [] (ev_participant_ids data))
          else if decide (event_type = Some "participant_added") then
            let invited_user_id := get_or_none (ev_invited_user_id data) in
            if Py.truthy invited_user_id then
              match user_sid_map r !! Py.str invited_user_id with
              | Some sids =>
                  map (fun sid =>
                         emit "meeting_invitation"
                           (PNotification
                              {| n_meeting_id := meeting_id;
                                 n_title := default (Py.JStr "Meeting Invitation") (ev_title data);
                                 n_message :=
                                   Py.JStr ("You've been invited to a meeting: "
                                            +:+ Py.str (default (Py.JStr "New Meeting") (ev_title data)));
                                 n_timestamp := get_or_none (ev_timestamp data);
                                 n_status := None;
                                 n_meeting_details := Some (ev_meeting data);
                                 n_changes := None;
                                 n_participant_id := None;
                                 n_user_id := Some invited_user_id;
                                 n_sender_id := None |})
                           sid)
                      sids
              | None => []
              end
            else []
          else if decide (event_type = Some "participant_status_updated") then
            let status := get_or_none (ev_new_status data) in
            let user_id := get_or_none (ev_user_id data) in
            if (Py.truthy status && Py.truthy user_id)%bool then
              [emit "meeting_update"
                 (PNotification
                    {| n_meeting_id := meeting_id;
                       n_title := Py.JStr "Participant Status Updated";
                       n_message :=
                         Py.JStr ("A participant has " +:+ Py.str status +:+ " the meeting");
                       n_timestamp := get_or_none (ev_timestamp data);
                       n_status := Some status;
                       n_meeting_details := None; n_changes := None;
                       n_participant_id := Some user_id;
                       n_user_id := None; n_sender_id := None |})
                 room_name]
            else []
          else []
    end.

(** ** Session protocol handlers *)

(** [send_to_user]: the emissions, and whether the identity was
    registered.  The registry is keyed by strings, so an identity that is
    not a [str] is never found. *)
Definition send_to_user (user_id : Py.scalar) (event : string) (data : payload)
    (r : registry) : list emission * bool :=
  match user_id with
  | Py.JStr u =>
      match user_sid_map r !! u with
      | Some sids => (map (fun sid => emit event data sid) sids, true)
      | None => ([], false)
      end
  | _ => ([], false)
  end.

(** The effective identity of [join_room], [leave_room] and
    [chat_message]:
<<
    if user_id: active_user_id = user_id
    else:       active_user_id = data_user_id or f'temp_user_{request.sid}'
>> *)
Definition active_user_id (sid : string) (user_id : option string)
    (data_user_id : option Py.scalar) : Py.scalar :=
  let fallback :=
    let data_user_id := default (Py.JStr "") data_user_id in
    if Py.truthy data_user_id then data_user_id
    else Py.JStr ("temp_user_" +:+ sid) in
  match user_id with
  | Some u => if Py.str_truthy u then Py.JStr u else fallback
  | None => fallback
  end.

Definition opt_truthy (s : option string) : bool :=
  match s with
  | Some s => Py.str_truthy s
  | None => false
  end.

(** Payload of [join_room]. *)
Record join_data := mk_join_data {
  jd_meeting_id : option string;
  jd_user_id : option Py.scalar;
  jd_user_name : option string
}.

Section Handlers.
Context (L : pylib).

Definition handle_join_room (sid : string) (data : join_data) (st : state)
    : state * list emission :=
  let user_id := sid_user_map (st_registry st) !! sid in
  let active := active_user_id sid user_id (jd_user_id data) in
  let user_name := default "Guest" (jd_user_name data) in
  match jd_meeting_id data with
  | Some room =>
      if Py.str_truthy room then
        let st' :=
          mk_state (st_registry st) (st_redis st) (st_db st)
                   (<[room := {[sid]} ∪ members_of room st]> (st_rooms st)) in
        let joined :=
          mk_emission "user_joined"
            (PPresence active user_name room (bool_decide (is_Some user_id)))
            room (Some sid) in
        let messages := get_chat_history_with_user_limit L room 50 5 (st_redis st) in
        match messages with
        | [] => (st', [joined])
        | _ => (st', [joined; emit "chat_history" (PChatHistory room messages) sid])
        end
      else (st, [])
  | None => (st, [])
  end.

(** Payload of [chat_message]. *)
Record chat_data := mk_chat_data {
  cd_meeting_id : option string;
  cd_message_text : option string;
  cd_user_id : option Py.scalar;
  cd_user_name : option string
}.

(** [int(active_user_id)] *)
Definition int_of_scalar (x : Py.scalar) : option Z :=
  match x with
  | Py.JInt n => Some n
  | Py.JStr s => Py.int s
  | Py.JNone => None
  end.

(** [isinstance(active_user_id, str) and active_user_id.startswith("guest_")] *)
Definition is_guest (active : Py.scalar) : bool :=
  match active with
  | Py.JStr s => Py.startswith "guest_" s
  | _ => false
  end.

(** The row built inside the [try] of [handle_chat_message]; [None] when
    one of the [int] conversions raises.  [id] and [timestamp] are not set
    by the handler (written 0 here): the commit assigns them. *)
Definition new_message (room : string) (active : Py.scalar)
    (user_name content : string) : option ChatMessage.t :=
  if is_guest active then
    m ← Py.int room;
    Some (ChatMessage.mk 0 m (Some 1) (Some (Py.str active)) (Some user_name) content 0)
  else
    m ← Py.int room;
    u ← int_of_scalar active;
    Some (ChatMessage.mk 0 m (Some u) None (Some user_name) content 0).

(** [handle_chat_message].  [now] is the clock at the insert and
    [accepted] the verdict of the database on the commit.  After a
    successful commit [new_message] is the row flushed last; every
    exception inside the [try] ends in [failed]: rollback, then a
    [message_error] to the sender. *)
Definition handle_chat_message (sid : string) (data : chat_data) (now : Z)
    (accepted : bool) (st : state) : state * list emission :=
  let user_id := sid_user_map (st_registry st) !! sid in
  let active := active_user_id sid user_id (cd_user_id data) in
  let user_name := default "Guest" (cd_user_name data) in
  let failed (d : database) :=
    (mk_state (st_registry st) (st_redis st) (session_rollback d) (st_rooms st),
     [emit "message_error" (PError "Failed to save message") sid]) in
  match cd_meeting_id data, cd_message_text data with
  | Some room, Some message_content =>
      if (Py.str_truthy room && Py.str_truthy message_content)%bool then
        match new_message room active user_name message_content with
        | None => failed (st_db st)
        | Some row =>
            let d := session_add row (st_db st) in
            match session_commit accepted now d with
            | Raised _ => failed d
            | Returned d' =>
                match last (chat_messages d') with
                | None => failed d'
                | Some saved =>
                    let message_data :=
                      set_authenticated (ChatMessage.to_dict L saved)
                                        (Some (bool_decide (is_Some user_id))) in
                    let redis' := store_message_in_redis L room message_data (st_redis st) in
                    (mk_state (st_registry st) redis' d' (st_rooms st),
                     [emit "chat_message" (PChatMessage message_data) room])
                end
            end
        end
      else
        (st, [emit "message_error" (PError "Missing room or message content") sid])
  | _, _ =>
      (st, [emit "message_error" (PError "Missing room or message content") sid])
  end.

(** Payload of [meeting_update]. *)
Record update_data := mk_update_data {
  ud_meeting_id : option string;
  ud_user_id : option Py.scalar;
  ud_title : option Py.scalar;
  ud_message : option Py.scalar;
  ud_meeting_details : option raw;
  ud_status : option Py.scalar;
  ud_participant_id : option Py.scalar
}.

(** [handle_meeting_update]; it changes no state. *)
Definition handle_meeting_update (sid : string) (data : update_data) (now : Z)
    (st : state) : list emission :=
  let user_id := sid_user_map (st_registry st) !! sid in
  if negb (opt_truthy user_id) then
    [emit "update_error" (PError "Authentication required") sid]
  else
    match ud_meeting_id data with
    | Some meeting_id =>
        if Py.str_truthy meeting_id then
          let notification_data :=
            PNotification
              {| n_meeting_id := Py.JStr meeting_id;
                 n_title := default (Py.JStr "Meeting Updated") (ud_title data);
                 n_message := default (Py.JStr "A meeting has been updated") (ud_message data);
                 n_timestamp := Py.JStr (isoformat L now +:+ "Z");
                 n_status := ud_status data;
                 n_meeting_details := ud_meeting_details data;
                 n_changes := None;
                 n_participant_id := ud_participant_id data;
                 n_user_id := None;
                 n_sender_id := user_id |} in
          let target_user_id := get_or_none (ud_user_id data) in
          if Py.truthy target_user_id then
            let '(sent, found) :=
              send_to_user target_user_id "meeting_update" notification_data
                           (st_registry st) in
            if found then sent
            else [emit "meeting_update" notification_data meeting_id]
          else [emit "meeting_update" notification_data meeting_id]
        else [emit "update_error" (PError "Missing meeting_id") sid]
    | None => [emit "update_error" (PError "Missing meeting_id") sid]
    end.

(** Answer of the history endpoint. *)
Inductive response :=
| Ok200 (messages : list message)
| BadRequest400
| Error500.

(** [get_meeting_chat_history], after authentication:
    [GET /api/v1/chat/history/<meeting_id>?limit=..&per_user_limit=..]. *)
Definition get_meeting_chat_history (meeting_id : string)
    (limit per_user_limit : Z) (st : state) : response * state :=
  match Py.int meeting_id with
  | None => (BadRequest400, st)
  | Some meeting_id_int =>
      let messages :=
        if (0 <? per_user_limit)%Z
        then get_chat_history_with_user_limit L meeting_id limit per_user_limit (st_redis st)
        else get_chat_history L meeting_id limit (st_redis st) in
      match messages with
      | [] =>
          match query_history meeting_id_int limit (st_db st) with
          | Raised _ => (Error500, st)
          | Returned db_messages =>
              let messages := map (ChatMessage.to_dict L) db_messages in
              let redis' :=
                foldl (fun r message => store_message_in_redis L meeting_id message r)
                      (st_redis st) messages in
              (Ok200 messages,
               mk_state (st_registry st) redis' (st_db st) (st_rooms st))
          end
      | _ => (Ok200 messages, st)
      end
  end.
End Handlers.

(** ** Traces of the service *)

(** What reaches the process: Socket.IO events, bus messages and history
    requests. *)
Inductive input :=
| InConnect (auth : option jwt_claims) (sid : string)
| InDisconnect (sid : string)
| InJoinRoom (sid : string) (data : join_data)
| InChatMessage (sid : string) (data : chat_data) (now : Z) (accepted : bool)
| InMeetingUpdate (sid : string) (data : update_data) (now : Z)
| InBus (message : pubsub_message)
| InHistory (meeting_id : string) (limit per_user_limit : Z).

Definition with_registry (r : registry) (st : state) : state :=
  mk_state r (st_redis st) (st_db st) (st_rooms st).

(** One input; on disconnect the transport also takes the connection out
    of every room. *)
Definition step (L : pylib) (i : input) (st : state) : state * list emission :=
  match i with
  | InConnect auth sid => (with_registry (handle_connect auth sid (st_registry st)) st, [])
  | InDisconnect sid =>
      let r := exec_op (Disconnect sid) (st_registry st) in
      (mk_state r (st_redis st) (st_db st) ((fun s => s ∖ {[sid]}) <$> st_rooms st), [])
  | InJoinRoom sid data => handle_join_room L sid data st
  | InChatMessage sid data now accepted => handle_chat_message L sid data now accepted st
  | InMeetingUpdate sid data now => (st, handle_meeting_update L sid data now st)
  | InBus message => (st, handle_redis_message message (st_registry st))
  | InHistory meeting_id limit per_user_limit =>
      ((get_meeting_chat_history L meeting_id limit per_user_limit st).2, [])
  end.

(** A whole trace, with everything emitted along it. *)
Fixpoint run (L : pylib) (inputs : list input) (st : state) : state * list emission :=
  match inputs with
  | [] => (st, [])
  | i :: inputs' =>
      let '(st1, out1) := step L i st in
      let '(st2, out2) := run L inputs' st1 in
      (st2, out1 ++ out2)
  end.

(** ** Statements in the words of the specification *)

(** An identity is in a room when one of its connections is. *)
Definition in_room (user_id room : string) (st : state) : bool :=
  existsb (fun sid => bool_decide (sid ∈ members_of room st))
          (connections_of user_id (st_registry st)).

(** The fan-out of [meeting_deleted] as the specification words it: the
    room broadcast, then a direct push to the connections of each listed
    participant who is not in the room. *)
Definition spec_meeting_deleted (data : bus_event) (meeting_id : Py.scalar)
    (st : state) : list emission :=
  emit "meeting_update"
    (PNotification (deleted_notification data meeting_id "This meeting has been canceled"))
    (Py.str meeting_id)
  :: flat_map
       (fun user_id =>
          if in_room (Py.str user_id) (Py.str meeting_id) st then []
          else
            map (fun sid =>
                   emit "meeting_update"
                     (PNotification
                        (deleted_notification data meeting_id
                           "A meeting you were invited to has been canceled"))
                     sid)
                (connections_of (Py.str user_id) (st_registry st)))
       (default [] (ev_participant_ids data)).

(** The most recent [n] rows of a meeting, oldest first, as the
    specification words the history read. *)
Definition spec_most_recent (m : Z) (n : Z) (d : database) : list ChatMessage.t :=
  Py.slice_from (- n)
    (Py.sorted Z.leb ChatMessage.timestamp
       (filter (fun row => ChatMessage.meeting_id row = m) (chat_messages d))).

(** Number of messages of one sender in a history view. *)
Definition count_sender (u : Py.scalar) (l : list message) : nat :=
  length (filter (fun msg => sender_key msg = u) l).

(** The grouping dict of the diversity-limited view is well formed when
    its keys are distinct and each message sits under its own sender. *)
Definition groups_ok (g : list (Py.scalar * list message)) : Prop :=
  NoDup (g.*1) /\
  Forall (fun e => Forall (fun msg => sender_key msg = e.1) (e.2)) g.

(** ** Invariant of the service along a trace *)







(** An event that carries no chat message. *)
Definition is_notice (e : emission) : Prop :=
  match em_payload e with
  | PChatMessage _ | PChatHistory _ _ => False
  | _ => True
  end.


(** ** A reference instance of the library, for closed examples *)

Module Demo.

Definition quote : string := String (ascii_of_nat 34) EmptyString.

Definition json_str (s : string) : string := quote +:+ s +:+ quote.

Definition json_scalar (x : Py.scalar) : string :=
  match x with
  | Py.JNone => "null"
  | Py.JInt n => pretty n
  | Py.JStr s => json_str s
  end.

(** [json.dumps] of a message whose strings need no escaping. *)
Definition dumps (m : message) : string :=
  "{" +:+ json_str "id" +:+ ": " +:+ pretty (msg_id m)
  +:+ ", " +:+ json_str "meeting_id" +:+ ": " +:+ pretty (msg_meeting_id m)
  +:+ match msg_user_id m with
      | Some u => ", " +:+ json_str "user_id" +:+ ": " +:+ json_scalar u
      | None => ""
      end
  +:+ ", " +:+ json_str "user_name" +:+ ": "
  +:+ from_option json_str "null" (msg_user_name m)
  +:+ ", " +:+ json_str "content" +:+ ": " +:+ json_str (msg_content m)
  +:+ match msg_timestamp m with
      | Some t => ", " +:+ json_str "timestamp" +:+ ": " +:+ json_str t
      | None => ""
      end
  +:+ match msg_authenticated m with
      | Some b => ", " +:+ json_str "authenticated" +:+ ": "
                  +:+ (if b : bool then "true" else "false")
      | None => ""
      end
  +:+ "}".

(** The instants used in the examples: microseconds since the epoch and
    the text [isoformat()] gives for them. *)
Definition clock : list (Z * string) :=
  [ (1714557600000000, "2024-05-01T10:00:00");
    (1714557605000000, "2024-05-01T10:00:05");
    (1714557609000000, "2024-05-01T10:00:09");
    (1714557612000000, "2024-05-01T10:00:12") ].

Definition isoformat (t : Z) : string :=
  from_option (fun e => e.2.2) "" (list_find (fun e => e.1 = t) clock).

Definition iso_timestamp (s : string) : option Z :=
  (fun e => e.2.1) <$> list_find (fun e => e.2 +:+ "Z" = s) clock.

(** [json.loads] on the texts of [known]: the inverse of [dumps] there. *)
Definition loads (known : list message) (s : string) : option message :=
  snd <$> list_find (fun m => dumps m = s) known.

Definition lib (known : list message) : pylib :=
  mk_pylib dumps (loads known) iso_timestamp isoformat.

End Demo.

(** ** Data of the closed examples *)

Module Scenario.

Definition ann1 : message :=
  mk_message 1 42 (Some (Py.JStr "guest_ann")) (Some "Ann") "hello"
             (Some "2024-05-01T10:00:00Z") (Some false).
Definition ann2 : message :=
  mk_message 2 42 (Some (Py.JStr "guest_ann")) (Some "Ann") "anyone here?"
             (Some "2024-05-01T10:00:05Z") (Some false).
Definition bob3 : message :=
  mk_message 3 42 (Some (Py.JInt 7)) (Some "Bob") "hi Ann"
             (Some "2024-05-01T10:00:09Z") (Some true).
Definition ann4 : message :=
  mk_message 4 42 (Some (Py.JStr "guest_ann")) (Some "Ann") "good"
             (Some "2024-05-01T10:00:12Z") (Some false).

Definition L : pylib := Demo.lib [ann1; ann2; bob3; ann4].

(** The cache of room 42 after the four messages were stored in order. *)
Definition cache : Redis.db :=
  foldl (fun r m => store_message_in_redis L "42" m r) Redis.empty
        [ann1; ann2; bob3; ann4].


(** Identity 7 is connected as [sid_a] and has joined room 42. *)
Definition joined : state :=
  mk_state (register "7" "sid_a" empty_registry) Redis.empty empty_database
           {[ "42" := {[ "sid_a" ]} ]}.

Definition deleted_event : bus_event :=
  mk_bus_event (Some "meeting_deleted") (Some (Py.JInt 42)) None
               (Some (Py.JStr "2024-05-01T10:00:12Z")) None None
               (Some [Py.JInt 7; Py.JInt 8]) None None None.

(** Three rows of meeting 42 in the table. *)
Definition row1 : ChatMessage.t :=
  ChatMessage.mk 1 42 (Some 1) (Some "guest_ann") (Some "Ann") "hello" 1714557600000000.
Definition row2 : ChatMessage.t :=
  ChatMessage.mk 2 42 (Some 7) None (Some "Bob") "hi Ann" 1714557605000000.
Definition row3 : ChatMessage.t :=
  ChatMessage.mk 3 42 (Some 1) (Some "guest_ann") (Some "Ann") "good" 1714557609000000.

Definition stored : state :=
  mk_state empty_registry Redis.empty (mk_database [row1; row2; row3] [] 4) ∅.


End Scenario.

(** The invariant carried along a trace: the maps are symmetric and no
    identity lists a connection twice. *)
Definition registry_inv (r : registry) : Prop :=
  symmetric r /\
  forall uid conns, user_sid_map r !! uid = Some conns -> NoDup conns.

(** ** Handlers beside the ones above: [leave_room], [meeting_invitation] *)

(** [handle_leave_room]; the payload has the keys of [join_room].  The
    [user_left] dict is the [user_joined] one without [meeting_id]. *)
Definition handle_leave_room (sid : string) (data : join_data) (st : state)
    : state * list emission :=
  let user_id := sid_user_map (st_registry st) !! sid in
  let active := active_user_id sid user_id (jd_user_id data) in
  let user_name := default "Guest" (jd_user_name data) in
  match jd_meeting_id data with
  | Some room =>
      if Py.str_truthy room then
        (mk_state (st_registry st) (st_redis st) (st_db st)
                  (<[room := members_of room st ∖ {[sid]}]> (st_rooms st)),
         [mk_emission "user_left"
            (PPresence active user_name room (bool_decide (is_Some user_id)))
            room (Some sid)])
      else (st, [])
  | None => (st, [])
  end.

(** What a handler hands to the transport: an [emit] with a target, or
    [emit(event, data, broadcast=True)], which goes to every connection. *)
Inductive dispatch :=
| Emit (e : emission)
| EmitAll (event : string) (data : payload).

(** Payload of [meeting_invitation]. *)
Record invitation_data := mk_invitation_data {
  iv_meeting_id : option string;
  iv_user_id : option Py.scalar;
  iv_title : option Py.scalar;
  iv_message : option Py.scalar;
  iv_meeting_details : option raw
}.

(** The dict [invitation_data] of [handle_meeting_invitation]. *)
Definition invitation_notification (L : pylib) (meeting_id : string)
    (target_user_id : Py.scalar) (data : invitation_data) (now : Z)
    (user_id : option string) : notification :=
  {| n_meeting_id := Py.JStr meeting_id;
     n_title := default (Py.JStr "Meeting Invitation") (iv_title data);
     n_message := default (Py.JStr "You have been invited to a meeting") (iv_message data);
     n_timestamp := Py.JStr (isoformat L now +:+ "Z");
     n_status := None;
     n_meeting_details := iv_meeting_details data;
     n_changes := None;
     n_participant_id := None;
     n_user_id := Some target_user_id;
     n_sender_id := user_id |}.

(** [handle_meeting_invitation]; it changes no state. *)
Definition handle_meeting_invitation (L : pylib) (sid : string)
    (data : invitation_data) (now : Z) (st : state) : list dispatch :=
  let user_id := sid_user_map (st_registry st) !! sid in
  if negb (opt_truthy user_id) then
    [Emit (emit "invitation_error" (PError "Authentication required") sid)]
  else
    let target_user_id := get_or_none (iv_user_id data) in
    match iv_meeting_id data with
    | Some meeting_id =>
        if (Py.str_truthy meeting_id && Py.truthy target_user_id)%bool then
          let invitation :=
            PNotification
              (invitation_notification L meeting_id target_user_id data now user_id) in
          let '(sent, found) :=
            send_to_user target_user_id "meeting_invitation" invitation (st_registry st) in
          if found then Emit <$> sent
          else [EmitAll "meeting_invitation" invitation]
        else [Emit (emit "invitation_error" (PError "Missing required data") sid)]
    | None => [Emit (emit "invitation_error" (PError "Missing required data") sid)]
    end.

(** ** Further invariants and notions used by the properties below *)

(** No identity is kept with an empty connection list. *)
Definition no_empty_entry (r : registry) : Prop :=
  forall uid conns, user_sid_map r !! uid = Some conns -> conns <> [].

(** The connections an emission list addresses, in order. *)
Definition targets (out : list emission) : list string := em_to <$> out.


(** Every member cached for a room is the JSON text of a message of that
    meeting: the room name converts to the message's [meeting_id]. *)
Definition room_member_ok (L : pylib) (room s : string) : Prop :=
  exists d, s = json_dumps L d /\ Py.int room = Some (msg_meeting_id d).

Definition rooms_isolated (L : pylib) (st : state) : Prop :=
  session_new (st_db st) = []
  /\ forall room e, e ∈ Redis.get (history_key room) (st_redis st) ->
                    room_member_ok L room e.1.

(** The keys a cache write for [room] leaves alone: the history of the
    other rooms. *)
Definition history_of (room : string) (r : Redis.db) : Redis.zset :=
  Redis.get (history_key room) r.

(** A chat event stays within its meeting: a [chat_message] goes to the
    room whose name converts to the message's [meeting_id], and a
    [chat_history] for a room holds messages read back from the JSON text
    of messages of that meeting. *)
Definition emission_isolated (L : pylib) (e : emission) : Prop :=
  match em_payload e with
  | PChatMessage m => Py.int (em_to e) = Some (msg_meeting_id m)
  | PChatHistory room ms =>
      Forall (fun m => exists d, json_loads L (json_dumps L d) = Some m
                                 /\ Py.int room = Some (msg_meeting_id d)) ms
  | _ => True
  end.




(** * Verified properties *)

(** ** Connection registry *)

Lemma list_remove_Some x l l' :
  Py.list_remove x l = Some l' ->
  NoDup l ->
  NoDup l' /\ forall y, y ∈ l' <-> y ∈ l /\ y <> x.
Proof.
  revert l'. induction l as [|a l IH]; intros l' Hrm Hnd; simpl in Hrm.
  - discriminate.
  - apply NoDup_cons in Hnd as [Ha Hnd].
    destruct (decide (a = x)) as [->|Hne].
    + inversion Hrm; subst. split; [done|].
      intros y. rewrite elem_of_cons. split.
      * intros Hy. split; [by right|]. intros ->. done.
      * intros [[->|Hy] Hyx]; done.
    + destruct (Py.list_remove x l) as [l0|] eqn:E; simpl in Hrm; [|discriminate].
      inversion Hrm; subst. destruct (IH l0 eq_refl Hnd) as [Hnd0 Hin].
      split.
      * apply NoDup_cons. split; [|done]. rewrite Hin. tauto.
      * intros y. rewrite !elem_of_cons, Hin. split.
        -- intros [->|[? ?]]; auto.
        -- intros [[->|?] ?]; auto.
Qed.

Lemma list_remove_is_Some x l : x ∈ l -> is_Some (Py.list_remove x l).
Proof.
  induction l as [|a l IH]; intros Hin.
  - by apply elem_of_nil in Hin.
  - simpl. destruct (decide (a = x)); [eauto|].
    apply elem_of_cons in Hin as [->|Hin]; [done|].
    destruct (IH Hin) as [l' ->]. simpl. eauto.
Qed.

Lemma registry_inv_empty : registry_inv empty_registry.
Proof.
  split.
  - intros sid uid. cbn. rewrite lookup_empty. split; [done|].
    intros (conns & H & _). cbn in H. by rewrite lookup_empty in H.
  - intros uid conns. cbn. by rewrite lookup_empty.
Qed.

Lemma registry_inv_register u s r :
  registry_inv r -> sid_user_map r !! s = None -> registry_inv (register u s r).
Proof.
  intros [Hsym Hnd] Hfresh. unfold register.
  destruct (Py.str_truthy u); [|by split].
  assert (Hnot : forall uid conns, user_sid_map r !! uid = Some conns -> s ∉ conns).
  { intros uid conns Hl Hin.
    assert (sid_user_map r !! s = Some uid) as E by (apply Hsym; eauto).
    congruence. }
  split.
  - intros sid uid. simpl. split.
    + intros H. destruct (decide (s = sid)) as [->|Hne].
      * rewrite lookup_insert_eq in H. inversion H; subst.
        rewrite lookup_insert_eq. eexists. split; [done|].
        apply elem_of_app. right. by apply list_elem_of_singleton.
      * rewrite lookup_insert_ne in H by done.
        apply Hsym in H as (conns & Hl & Hin).
        destruct (decide (u = uid)) as [->|Hu].
        -- rewrite lookup_insert_eq, Hl. simpl. eexists. split; [done|].
           apply elem_of_app. by left.
        -- rewrite lookup_insert_ne by done. eauto.
    + intros (conns & Hl & Hin).
      destruct (decide (u = uid)) as [->|Hu].
      * rewrite lookup_insert_eq in Hl. inversion Hl; subst.
        apply elem_of_app in Hin as [Hin|Hin].
        -- destruct (user_sid_map r !! uid) as [l|] eqn:E; simpl in Hin;
             [|by apply elem_of_nil in Hin].
           assert (sid <> s) by (intros ->; by apply (Hnot uid l)).
           rewrite lookup_insert_ne by done. apply Hsym. eauto.
        -- apply list_elem_of_singleton in Hin as ->. by rewrite lookup_insert_eq.
      * rewrite lookup_insert_ne in Hl by done.
        assert (sid <> s) by (intros ->; by apply (Hnot uid conns)).
        rewrite lookup_insert_ne by done. apply Hsym. eauto.
  - intros uid conns. simpl. destruct (decide (u = uid)) as [->|Hu].
    + rewrite lookup_insert_eq. intros H; inversion H; subst.
      destruct (user_sid_map r !! uid) as [l|] eqn:E; simpl.
      * apply NoDup_app. split; [by eapply Hnd|]. split; [|apply NoDup_singleton].
        intros x Hx Hs. apply list_elem_of_singleton in Hs as ->. by apply (Hnot uid l).
      * apply NoDup_singleton.
    + rewrite lookup_insert_ne by done. apply Hnd.
Qed.

Lemma registry_inv_disconnect s r :
  registry_inv r -> registry_inv (exec_op (Disconnect s) r).
Proof.
  intros [Hsym Hnd]. simpl. unfold handle_disconnect.
  destruct (sid_user_map r !! s) as [u|] eqn:Hs; [|by split].
  pose proof Hs as Hs0. apply Hsym in Hs0 as (conns & Hl & Hin).
  rewrite Hl. destruct (list_remove_is_Some _ _ Hin) as [conns' Hrm].
  rewrite Hrm. destruct (list_remove_Some _ _ _ Hrm (Hnd _ _ Hl)) as [Hnd' Hmem].
  assert (Hsid : forall sid uid,
             delete s (sid_user_map r) !! sid = Some uid <->
             sid <> s /\ sid_user_map r !! sid = Some uid).
  { intros sid uid. destruct (decide (s = sid)) as [->|Hne].
    - rewrite lookup_delete_eq. split; [done|]. intros [? _]; done.
    - rewrite lookup_delete_ne by done. split; [intros; split; auto|tauto]. }
  assert (Hother : forall sid uid conns0,
             uid <> u -> user_sid_map r !! uid = Some conns0 -> sid ∈ conns0 -> sid <> s).
  { intros sid uid conns0 Hu Hl0 Hin0 ->.
    assert (sid_user_map r !! s = Some uid) as E by (apply Hsym; eauto).
    congruence. }
  destruct conns' as [|c conns'].
  - split.
    + intros sid uid. simpl. rewrite Hsid. split.
      * intros [Hne H]. apply Hsym in H as (conns0 & Hl0 & Hin0).
        destruct (decide (u = uid)) as [->|Hu].
        -- exfalso. rewrite Hl in Hl0. inversion Hl0; subst.
           assert (sid ∈ []) as Hnil by (apply Hmem; auto).
           by apply elem_of_nil in Hnil.
        -- rewrite lookup_delete_ne by done. eauto.
      * intros (conns0 & Hl0 & Hin0).
        destruct (decide (u = uid)) as [->|Hu];
          [by rewrite lookup_delete_eq in Hl0|].
        rewrite lookup_delete_ne in Hl0 by done.
        split; [eapply Hother; eauto|]. apply Hsym. eauto.
    + intros uid conns0. simpl. intros H.
      apply lookup_delete_Some in H as [_ H]. eauto.
  - split.
    + intros sid uid. simpl. rewrite Hsid. split.
      * intros [Hne H]. apply Hsym in H as (conns0 & Hl0 & Hin0).
        destruct (decide (u = uid)) as [->|Hu].
        -- rewrite lookup_insert_eq. eexists. split; [done|].
           rewrite Hl in Hl0. inversion Hl0; subst. apply Hmem. auto.
        -- rewrite lookup_insert_ne by done. eauto.
      * intros (conns0 & Hl0 & Hin0).
        destruct (decide (u = uid)) as [->|Hu].
        -- rewrite lookup_insert_eq in Hl0. inversion Hl0; subst.
           apply Hmem in Hin0 as [Hin0 Hne]. split; [done|]. apply Hsym. eauto.
        -- rewrite lookup_insert_ne in Hl0 by done.
           split; [eapply Hother; eauto|]. apply Hsym. eauto.
    + intros uid conns0. simpl. destruct (decide (u = uid)) as [->|Hu].
      * rewrite lookup_insert_eq. intros H; by inversion H; subst.
      * rewrite lookup_insert_ne by done. apply Hnd.
Qed.

Lemma registry_inv_run ops r :
  registry_inv r -> fresh_connects ops r -> registry_inv (run_ops ops r).
Proof.
  revert r. induction ops as [|op ops IH]; intros r Hinv Hfresh; [done|].
  destruct Hfresh as [Hop Hrest]. simpl. apply IH; [|done].
  destruct op as [u s|s].
  - by apply registry_inv_register.
  - by apply registry_inv_disconnect.
Qed.

(** C4, as stated, fails: registering the pair ("7", "sid_a") a second
    time appends the connection again, so the registry after two
    registrations is not the registry after one. *)
Lemma register_twice_differs :
  register "7" "sid_a" (register "7" "sid_a" empty_registry)
  <> register "7" "sid_a" empty_registry.
Proof.
  intros H. apply (f_equal (fun r => user_sid_map r !! "7")) in H.
  vm_compute in H. discriminate.
Qed.

(** C4, amended: [register] is total (it never raises), and a second
    registration of the same pair leaves the connection-to-identity map and
    the membership of every identity's connection list as the first
    registration left them; what changes is that the identity's list holds
    the connection once more. *)
Theorem register_twice (u s : string) (r : registry) :
  let r1 := register u s r in
  let r2 := register u s r1 in
  sid_user_map r2 = sid_user_map r1
  /\ (forall u' s', s' ∈ connections_of u' r2 <-> s' ∈ connections_of u' r1)
  /\ user_sid_map r2 =
       (if Py.str_truthy u
        then <[u := connections_of u r1 ++ [s]]> (user_sid_map r1)
        else user_sid_map r1).
Proof.
  cbv zeta. unfold register, connections_of.
  destruct (Py.str_truthy u) eqn:Hu; [|done]. simpl.
  rewrite !lookup_insert_eq. simpl. split; [|split; [|done]].
  - by rewrite insert_insert_eq.
  - intros u' s'. destruct (decide (u = u')) as [->|Hne].
    + rewrite !lookup_insert_eq. simpl. rewrite !elem_of_app. tauto.
    + by rewrite !lookup_insert_ne by done.
Qed.

(** C5, as stated, fails: after connect, connect again with the same pair
    and one disconnect, identity "7" still lists connection "sid_a" while
    the connection no longer resolves to any identity. *)
Lemma symmetry_broken_by_repeated_connect :
  ~ symmetric (run_ops [Connect "7" "sid_a"; Connect "7" "sid_a"; Disconnect "sid_a"]
                       empty_registry).
Proof.
  intros H. specialize (H "sid_a" "7"). destruct H as [_ H].
  assert (E : (None : option string) = Some "7"); [|discriminate].
  apply H. exists ["sid_a"]. split; [by vm_compute|]. apply list_elem_of_here.
Qed.

(** C5, amended: after every sequence of connects and disconnects from the
    empty registry in which each connect brings a connection that is not
    registered at that moment, a connection maps to an identity exactly
    when that identity's connection list contains it. *)
Theorem registry_symmetric (ops : list registry_op) :
  fresh_connects ops empty_registry ->
  symmetric (run_ops ops empty_registry).
Proof.
  intros Hfresh. by apply (registry_inv_run ops empty_registry registry_inv_empty).
Qed.

Lemma registry_symmetric_witness :
  symmetric (run_ops [Connect "7" "sid_a"; Connect "7" "sid_b";
                      Disconnect "sid_a"; Connect "guest_ann" "sid_c"]
                     empty_registry).
Proof.
  apply registry_symmetric. vm_compute. tauto.
Defined.

(** ** Diversity-limited history view *)

Section SortedFacts.
Context {A K : Type} (leb : K -> K -> bool) (key : A -> K).

Lemma insert_sorted_perm x l : Py.insert_sorted leb key x l ≡ₚ x :: l.
Proof.
  induction l as [|y l IH]; simpl; [done|].
  destruct (leb (key x) (key y)); [done|].
  rewrite IH. apply Permutation_swap.
Qed.

Lemma sorted_perm l : Py.sorted leb key l ≡ₚ l.
Proof.
  induction l as [|x l IH]; simpl; [done|].
  unfold Py.sorted in *. simpl. rewrite insert_sorted_perm. by rewrite IH.
Qed.
End SortedFacts.

Lemma slice_from_is_drop {A} (i : Z) (l : list A) :
  exists n, Py.slice_from i l = drop n l.
Proof. unfold Py.slice_from. eauto. Qed.

Lemma slice_from_last_length {A} (k : Z) (l : list A) :
  (0 < k)%Z -> (Z.of_nat (length (Py.slice_from (- k) l)) <= k)%Z.
Proof.
  intros Hk. unfold Py.slice_from. rewrite length_drop.
  destruct (- k <? 0)%Z eqn:E; lia.
Qed.

Lemma filter_drop_length {A} (P : A -> Prop) `{forall x, Decision (P x)} n (l : list A) :
  (length (filter P (drop n l)) <= length (filter P l))%nat.
Proof.
  revert n. induction l as [|x l IH]; intros [|n]; simpl; try lia.
  rewrite filter_cons. specialize (IH n). destruct (decide (P x)); simpl; lia.
Qed.

Lemma count_sender_slice u i l :
  (count_sender u (Py.slice_from i l) <= count_sender u l)%nat.
Proof.
  destruct (slice_from_is_drop i l) as [n ->]. apply filter_drop_length.
Qed.

Lemma count_sender_sorted u l :
  count_sender u (sort_by_timestamp l) = count_sender u l.
Proof.
  unfold count_sender, sort_by_timestamp.
  by rewrite (sorted_perm String.leb timestamp_key l).
Qed.

Lemma count_sender_app u l1 l2 :
  count_sender u (l1 ++ l2) = (count_sender u l1 + count_sender u l2)%nat.
Proof. unfold count_sender. by rewrite filter_app, length_app. Qed.

Lemma count_sender_foreign u k l :
  Forall (fun msg => sender_key msg = k) l -> k <> u -> count_sender u l = 0%nat.
Proof.
  intros Hall Hne. unfold count_sender.
  induction Hall as [|x l Hx _ IH]; [done|].
  rewrite filter_cons. destruct (decide (sender_key x = u)); [congruence|done].
Qed.

Lemma group_append_keys k msg g :
  forall k', k' ∈ (group_append k msg g).*1 <-> k' = k \/ k' ∈ g.*1.
Proof.
  induction g as [|[k0 ms] g IH]; intros k'; simpl.
  - rewrite list_elem_of_singleton, elem_of_nil. tauto.
  - destruct (decide (k0 = k)) as [->|Hne]; simpl.
    + rewrite !elem_of_cons. tauto.
    + rewrite !elem_of_cons, IH. tauto.
Qed.

Lemma group_append_ok k msg g :
  sender_key msg = k -> groups_ok g -> groups_ok (group_append k msg g).
Proof.
  intros Hk [Hnd Hall]. induction g as [|[k0 ms] g IH]; simpl.
  - split; simpl.
    + apply NoDup_singleton.
    + repeat constructor. done.
  - simpl in Hnd. apply NoDup_cons in Hnd as [Hk0 Hnd].
    apply Forall_cons in Hall as [Hms Hall]. simpl in Hms.
    destruct (decide (k0 = k)) as [->|Hne].
    + split; simpl.
      * apply NoDup_cons. done.
      * constructor; [|done]. simpl. apply Forall_app. split; [done|].
        by constructor.
    + destruct (IH Hnd Hall) as [Hnd' Hall']. split; simpl.
      * apply NoDup_cons. split; [|done].
        rewrite group_append_keys. intros [?|?]; done.
      * by constructor.
Qed.

Lemma group_by_user_ok l : groups_ok (group_by_user l).
Proof.
  unfold group_by_user.
  assert (Hgen : forall g, groups_ok g ->
            groups_ok (foldl (fun g msg => group_append (sender_key msg) msg g) g l)).
  { induction l as [|x l IH]; intros g Hg; simpl; [done|].
    apply IH. by apply group_append_ok. }
  apply Hgen. split; simpl; constructor.
Qed.

(** Within well-formed groups, taking the last [P] of each group keeps at
    most [P] messages of any sender. *)
Lemma limited_count u (P : Z) g :
  (0 < P)%Z -> groups_ok g ->
  (Z.of_nat (count_sender u
     (flat_map (fun '(_, messages) =>
                  Py.slice_from (- P) (sort_by_timestamp messages)) g)) <= P)%Z
  /\ (u ∉ g.*1 ->
      count_sender u
        (flat_map (fun '(_, messages) =>
                     Py.slice_from (- P) (sort_by_timestamp messages)) g) = 0%nat).
Proof.
  intros HP [Hnd Hall]. induction g as [|[k ms] g IH]; simpl.
  - split; [unfold count_sender; simpl; lia|done].
  - simpl in Hnd. apply NoDup_cons in Hnd as [Hk Hnd].
    apply Forall_cons in Hall as [Hms Hall]. simpl in Hms.
    destruct (IH Hnd Hall) as [IHle IHzero].
    rewrite count_sender_app.
    destruct (decide (k = u)) as [->|Hne].
    + split.
      * rewrite (IHzero Hk).
        assert (count_sender u (Py.slice_from (- P) (sort_by_timestamp ms))
                <= length (Py.slice_from (- P) (sort_by_timestamp ms)))%nat
          by apply length_filter.
        pose proof (slice_from_last_length P (sort_by_timestamp ms) HP). lia.
      * intros Hnot. exfalso. apply Hnot. apply list_elem_of_here.
    + assert (count_sender u (Py.slice_from (- P) (sort_by_timestamp ms)) = 0%nat) as E.
      { pose proof (count_sender_slice u (- P) (sort_by_timestamp ms)) as Hle.
        rewrite count_sender_sorted, (count_sender_foreign u k ms Hms Hne) in Hle. lia. }
      rewrite E. split; [simpl; lia|].
      intros Hnot. simpl. apply IHzero. intros Hin. apply Hnot. by apply list_elem_of_further.
Qed.

(** C1: for positive limits [G] and [P], whatever the cache holds for the
    room, the view of [get_chat_history_with_user_limit] has at most [G]
    messages and at most [P] from any one sender. *)
Theorem history_with_user_limit_bounds (L : pylib) (room : string) (G P : Z)
    (r : Redis.db) :
  (0 < G)%Z -> (0 < P)%Z ->
  let view := get_chat_history_with_user_limit L room G P r in
  (Z.of_nat (length view) <= G)%Z
  /\ forall u, (Z.of_nat (count_sender u view) <= P)%Z.
Proof.
  intros HG HP. cbv zeta. unfold get_chat_history_with_user_limit.
  destruct (parse_all L _) as [all_messages|]; [|simpl; split; [lia|intros; unfold count_sender; simpl; lia]].
  set (limited := flat_map _ (group_by_user all_messages)).
  assert (Hcount : forall u, (Z.of_nat (count_sender u (sort_by_timestamp limited)) <= P)%Z).
  { intros u. rewrite count_sender_sorted.
    apply (limited_count u P (group_by_user all_messages) HP (group_by_user_ok _)). }
  destruct (G <? Z.of_nat (length (sort_by_timestamp limited)))%Z eqn:E.
  - split; [by apply slice_from_last_length|].
    intros u. pose proof (count_sender_slice u (- G) (sort_by_timestamp limited)).
    specialize (Hcount u). lia.
  - split; [lia|done].
Qed.

Example view_keeps_latest_per_sender :
  get_chat_history_with_user_limit Scenario.L "42" 10 1 Scenario.cache
  = [Scenario.bob3; Scenario.ann4].
Proof. vm_compute. reflexivity. Qed.

Example view_global_cap :
  get_chat_history_with_user_limit Scenario.L "42" 2 5 Scenario.cache
  = [Scenario.bob3; Scenario.ann4].
Proof. vm_compute. reflexivity. Qed.

Lemma history_with_user_limit_bounds_witness :
  (Z.of_nat (length (get_chat_history_with_user_limit Scenario.L "42" 2 1 Scenario.cache)) <= 2)%Z
  /\ forall u,
      (Z.of_nat (count_sender u
         (get_chat_history_with_user_limit Scenario.L "42" 2 1 Scenario.cache)) <= 1)%Z.
Proof.
  apply (history_with_user_limit_bounds Scenario.L "42" 2 1 Scenario.cache); lia.
Defined.

(** ** Event bridge *)

(** C3, as stated, fails: identity 7 has joined room 42 with its only
    connection, and the bridge still pushes the deletion to that
    connection directly, where the specification's fan-out leaves out the
    participants who are in the room.  The bridge holds no room
    membership to consult: its loop tests the registry only. *)
Lemma meeting_deleted_pushes_to_room_members :
  handle_redis_message
    (mk_pubsub_message "message" "meeting_events" (Some Scenario.deleted_event))
    (st_registry Scenario.joined)
  <> spec_meeting_deleted Scenario.deleted_event (Py.JInt 42) Scenario.joined.
Proof. vm_compute. discriminate. Qed.

(** C3, amended: for a [meeting_deleted] event with a meeting id that is
    neither empty nor zero, the bridge emits the room broadcast and then,
    for each listed participant in order, one direct push to every
    registered connection of that participant, whether or not the
    participant is in the room, and nothing else; every one of these
    notifications has status [deleted]. *)
Theorem meeting_deleted_fanout (data : bus_event) (channel : string)
    (meeting_id : Py.scalar) (r : registry) :
  ev_event_type data = Some "meeting_deleted" ->
  ev_meeting_id data = Some meeting_id ->
  Py.truthy meeting_id = true ->
  let broadcast :=
    deleted_notification data meeting_id "This meeting has been canceled" in
  let direct :=
    deleted_notification data meeting_id
      "A meeting you were invited to has been canceled" in
  handle_redis_message (mk_pubsub_message "message" channel (Some data)) r
  = emit "meeting_update" (PNotification broadcast) (Py.str meeting_id)
    :: flat_map
         (fun user_id =>
            map (fun sid => emit "meeting_update" (PNotification direct) sid)
                (connections_of (Py.str user_id) r))
         (default [] (ev_participant_ids data))
  /\ n_status broadcast = Some (Py.JStr "deleted")
  /\ n_status direct = Some (Py.JStr "deleted").
Proof.
  intros Hty Hid Htruthy. cbv zeta. split; [|done].
  unfold handle_redis_message. simpl. rewrite Hid. simpl. rewrite Htruthy. simpl.
  rewrite Hty.
  repeat (case_decide; [discriminate|]).
  case_decide; [|done].
  f_equal. apply flat_map_ext. intros user_id. unfold connections_of.
  by destruct (user_sid_map r !! Py.str user_id).
Qed.

Lemma meeting_deleted_fanout_witness :
  handle_redis_message
    (mk_pubsub_message "message" "meeting_events" (Some Scenario.deleted_event))
    (st_registry Scenario.joined)
  = [ emit "meeting_update"
        (PNotification
           (deleted_notification Scenario.deleted_event (Py.JInt 42)
              "This meeting has been canceled")) "42";
      emit "meeting_update"
        (PNotification
           (deleted_notification Scenario.deleted_event (Py.JInt 42)
              "A meeting you were invited to has been canceled")) "sid_a" ].
Proof.
  destruct (meeting_deleted_fanout Scenario.deleted_event "meeting_events"
              (Py.JInt 42) (st_registry Scenario.joined)
              eq_refl eq_refl eq_refl) as [H _].
  rewrite H. vm_compute. reflexivity.
Defined.

(** ** Session protocol handlers *)

(** C7: when the room id or the text is missing, or when the database
    refuses the write, [handle_chat_message] emits exactly one event, a
    [message_error] addressed to the sending connection; no row is added,
    the cache is untouched and nothing goes to the room.  A refused write
    is rolled back: the session holds no pending row afterwards; with a
    field missing the state is left as it was. *)
Theorem chat_message_failure_is_scoped (L : pylib) (sid : string)
    (data : chat_data) (now : Z) (accepted : bool) (st : state) :
  let present := (opt_truthy (cd_meeting_id data)
                  && opt_truthy (cd_message_text data))%bool in
  present = false \/ accepted = false ->
  let st' := (handle_chat_message L sid data now accepted st).1 in
  let out := (handle_chat_message L sid data now accepted st).2 in
  (exists reason, out = [emit "message_error" (PError reason) sid])
  /\ chat_messages (st_db st') = chat_messages (st_db st)
  /\ st_redis st' = st_redis st
  /\ (if present then session_new (st_db st') = [] else st' = st).
Proof.
  cbv zeta. unfold handle_chat_message.
  destruct (cd_meeting_id data) as [room|]; simpl;
    [|intros _; split; [eauto|done]].
  destruct (cd_message_text data) as [content|]; simpl;
    [|intros _; rewrite andb_false_r; split; [eauto|done]].
  destruct (Py.str_truthy room && Py.str_truthy content)%bool eqn:Hp; simpl;
    [|intros _; split; [eauto|done]].
  intros [Hfail | ->]; [done|].
  destruct (new_message _ _ _ _); simpl; split; eauto.
Qed.

Lemma chat_message_failure_is_scoped_witness :
  exists reason,
    (handle_chat_message Scenario.L "sid_a"
       (mk_chat_data (Some "42") (Some "hello") None (Some "Bob"))
       1714557600000000 false Scenario.joined).2
    = [emit "message_error" (PError reason) "sid_a"].
Proof.
  exact (proj1 (chat_message_failure_is_scoped Scenario.L "sid_a"
                  (mk_chat_data (Some "42") (Some "hello") None (Some "Bob"))
                  1714557600000000 false Scenario.joined (or_intror eq_refl))).
Defined.

(** C8: a [meeting_update] from a connection that resolves to no identity
    yields exactly one event, an [update_error] addressed to that
    connection; the handler changes no state and sends nothing to a room
    or to another connection. *)
Theorem meeting_update_requires_authentication (L : pylib) (sid : string)
    (data : update_data) (now : Z) (st : state) :
  sid_user_map (st_registry st) !! sid = None ->
  handle_meeting_update L sid data now st
  = [emit "update_error" (PError "Authentication required") sid].
Proof. intros H. unfold handle_meeting_update. by rewrite H. Qed.

Lemma meeting_update_requires_authentication_witness :
  handle_meeting_update Scenario.L "sid_x"
    (mk_update_data (Some "42") None (Some (Py.JStr "Moved")) None None None None)
    1714557600000000 Scenario.joined
  = [emit "update_error" (PError "Authentication required") "sid_x"].
Proof.
  apply meeting_update_requires_authentication. vm_compute. reflexivity.
Defined.

(** [int('temp_user_' + sid)] raises for every [sid]: the text starts
    with a letter, which no transliteration changes. *)
Lemma int_temp_user (sid : string) : Py.int ("temp_user_" +:+ sid) = None.
Proof.
  change ("temp_user_" +:+ sid) with (String "t" ("emp_user_" +:+ sid)).
  generalize ("emp_user_" +:+ sid). intros rest.
  unfold Py.int. simpl.
  destruct (Py.code_points (list_ascii_of_string rest)) as [text|]; simpl; [|done].
  by destruct (forallb _ text).
Qed.

(** C9: for a connection that resolves to no identity and a payload whose
    [user_id] is missing or empty, the effective identity is
    ['temp_user_<sid>']; it is not a guest id and its [int] conversion
    raises, so the handler emits exactly one event, a [message_error] to
    the sender, adds no row, leaves the cache untouched, and, when the room
    id and the text are present, ends with the session rolled back. *)
Theorem temp_identity_never_persists (L : pylib) (sid : string)
    (data : chat_data) (now : Z) (accepted : bool) (st : state) :
  sid_user_map (st_registry st) !! sid = None ->
  Py.truthy (default (Py.JStr "") (cd_user_id data)) = false ->
  let active := active_user_id sid None (cd_user_id data) in
  let st' := (handle_chat_message L sid data now accepted st).1 in
  let out := (handle_chat_message L sid data now accepted st).2 in
  active = Py.JStr ("temp_user_" +:+ sid)
  /\ is_guest active = false
  /\ int_of_scalar active = None
  /\ (exists reason, out = [emit "message_error" (PError reason) sid])
  /\ chat_messages (st_db st') = chat_messages (st_db st)
  /\ st_redis st' = st_redis st
  /\ (if (opt_truthy (cd_meeting_id data) && opt_truthy (cd_message_text data))%bool
      then st_db st' = session_rollback (st_db st)
      else st' = st).
Proof.
  intros Hsid Hdata. cbv zeta.
  assert (Hactive : active_user_id sid None (cd_user_id data)
                    = Py.JStr ("temp_user_" +:+ sid)).
  { unfold active_user_id. by rewrite Hdata. }
  rewrite Hactive. split; [done|]. split; [done|].
  split; [apply int_temp_user|].
  unfold handle_chat_message. rewrite Hsid, Hactive.
  destruct (cd_meeting_id data) as [room|]; simpl; [|split; [eauto|done]].
  destruct (cd_message_text data) as [content|]; simpl;
    [|rewrite andb_false_r; split; [eauto|done]].
  destruct (Py.str_truthy room && Py.str_truthy content)%bool; simpl;
    [|split; [eauto|done]].
  unfold new_message. simpl. rewrite int_temp_user.
  destruct (Py.int room); simpl; split; eauto.
Qed.

Lemma temp_identity_never_persists_witness :
  int_of_scalar (active_user_id "sid_x" None None) = None
  /\ (handle_chat_message Scenario.L "sid_x"
        (mk_chat_data (Some "42") (Some "hello") None None)
        1714557600000000 true Scenario.joined).2
     = [emit "message_error" (PError "Failed to save message") "sid_x"].
Proof.
  destruct (temp_identity_never_persists Scenario.L "sid_x"
              (mk_chat_data (Some "42") (Some "hello") None None)
              1714557600000000 true Scenario.joined eq_refl eq_refl)
    as (_ & _ & Hint & _).
  split; [exact Hint|]. vm_compute. reflexivity.
Defined.

(** ** History cache *)

Lemma zrange_last (N : Z) (z : Redis.zset) :
  (1 <= N)%Z ->
  Redis.zrange (- N) (-1) z = (drop (length z - Z.to_nat N) z).*1.
Proof.
  intros HN. unfold Redis.zrange, Redis.rank_range.
  destruct (- N <? 0)%Z eqn:E1; [|lia]. simpl.
  destruct ((Z.min (Z.of_nat (length z) + -1) (Z.of_nat (length z) - 1)
             <? Z.max 0 (Z.of_nat (length z) + - N))%Z
            || (Z.of_nat (length z) <=? Z.max 0 (Z.of_nat (length z) + - N))%Z)%bool
    eqn:E2.
  - assert (length z = 0%nat) as Hz by lia.
    destruct z; [done|simpl in Hz; lia].
  - rewrite take_ge by (rewrite length_drop; lia).
    f_equal. f_equal. lia.
Qed.

Lemma zremrangebyrank_trim (stop : Z) (z : Redis.zset) :
  (stop < 0)%Z ->
  Redis.zremrangebyrank 0 stop z = drop (length z - Z.to_nat (- stop - 1)) z.
Proof.
  intros Hs. unfold Redis.zremrangebyrank, Redis.rank_range.
  destruct (stop <? 0)%Z eqn:E1; [|lia]. simpl.
  destruct ((Z.min (Z.of_nat (length z) + stop) (Z.of_nat (length z) - 1) <? 0)%Z
            || (Z.of_nat (length z) <=? 0)%Z)%bool eqn:E2; simpl.
  - replace (length z - Z.to_nat (- stop - 1))%nat with 0%nat by lia. done.
  - f_equal. lia.
Qed.

Lemma redis_get_set_eq k z r : Redis.get k (Redis.set k z r) = z.
Proof.
  unfold Redis.get, Redis.set. destruct z; simpl.
  - by rewrite lookup_delete_eq.
  - by rewrite lookup_insert_eq.
Qed.

Lemma redis_get_set_ne k k' z r :
  k <> k' -> Redis.get k (Redis.set k' z r) = Redis.get k r.
Proof.
  intros Hne. unfold Redis.get, Redis.set. destruct z; simpl.
  - by rewrite lookup_delete_ne.
  - by rewrite lookup_insert_ne.
Qed.

Lemma redis_get_expire k k' s r :
  Redis.get k (Redis.expire k' s r) = Redis.get k r.
Proof. unfold Redis.get, Redis.expire. by destruct (Redis.zsets r !! k'). Qed.

Lemma history_key_not_user_key room room' u :
  history_key room <> user_key room' u.
Proof. unfold history_key, user_key. simpl. discriminate. Qed.

(** What [store_message_in_redis] leaves under the room key. *)
Lemma store_history_key (L : pylib) room m r ts t :
  msg_timestamp m = Some ts ->
  iso_timestamp L ts = Some t ->
  Redis.get (history_key room) (store_message_in_redis L room m r)
  = Redis.zremrangebyrank 0 (-501)
      (Redis.zadd (json_dumps L m) t (Redis.get (history_key room) r)).
Proof.
  intros Hts Ht. unfold store_message_in_redis. rewrite Hts. simpl. rewrite Ht.
  destruct (Py.truthy _);
    repeat first
      [ rewrite redis_get_set_eq
      | rewrite (redis_get_set_ne (history_key room) (user_key _ _))
          by apply history_key_not_user_key
      | rewrite redis_get_expire ];
    reflexivity.
Qed.



(** On the cache path with [N >= 1], [get_chat_history] decodes the last
    [N] entries of the room's sorted set, in rank order. *)
Lemma get_chat_history_recent (L : pylib) room N r :
  (1 <= N)%Z ->
  get_chat_history L room N r
  = default []
      (parse_all L
         (drop (length (Redis.get (history_key room) r) - Z.to_nat N)
               (Redis.get (history_key room) r)).*1).
Proof. intros HN. unfold get_chat_history. by rewrite zrange_last. Qed.

Lemma in_drop {A} (x : A) n (l : list A) : x ∈ drop n l -> x ∈ l.
Proof.
  intros H. rewrite <- (take_drop n l). apply elem_of_app. by right.
Qed.




(** With [limit = 0] the cache read is [ZRANGE key 0 -1]: the whole
    sorted set. *)
Example get_chat_history_limit_zero :
  get_chat_history Scenario.L "42" 0 Scenario.cache
  = [Scenario.ann1; Scenario.ann2; Scenario.bob3; Scenario.ann4].
Proof. vm_compute. reflexivity. Qed.

(** C2: the fallback reads [ORDER BY timestamp ASC LIMIT n].  With three
    rows for meeting 42, an empty cache and [limit = 2], the endpoint
    answers with the two oldest rows, where the most recent two are the
    second and the third; whatever the library functions are. *)
Theorem history_fallback_returns_oldest (L : pylib) :
  (get_meeting_chat_history L "42" 2 0 Scenario.stored).1
  = Ok200 (map (ChatMessage.to_dict L) [Scenario.row1; Scenario.row2])
  /\ spec_most_recent 42 2 (st_db Scenario.stored) = [Scenario.row2; Scenario.row3]
  /\ (get_meeting_chat_history L "42" 2 0 Scenario.stored).1
     <> Ok200 (map (ChatMessage.to_dict L)
                   (spec_most_recent 42 2 (st_db Scenario.stored))).
Proof.
  assert (E1 : (get_meeting_chat_history L "42" 2 0 Scenario.stored).1
               = Ok200 (map (ChatMessage.to_dict L) [Scenario.row1; Scenario.row2]))
    by (vm_compute; reflexivity).
  assert (E2 : spec_most_recent 42 2 (st_db Scenario.stored)
               = [Scenario.row2; Scenario.row3])
    by (vm_compute; reflexivity).
  split; [done|]. split; [done|].
  rewrite E1, E2. simpl. intros H. inversion H.
Qed.

(** ** Guest identities in what clients receive *)








Lemma zinsert_elem e x z : e ∈ Redis.zinsert x z -> e = x \/ e ∈ z.
Proof.
  induction z as [|f z IH]; simpl.
  - intros H. apply list_elem_of_singleton in H. by left.
  - destruct (Redis.entry_leb x f).
    + intros H. apply elem_of_cons in H as [->|H]; auto.
    + intros H. apply elem_of_cons in H as [->|H].
      * right. apply list_elem_of_here.
      * destruct (IH H) as [->|H']; [by left|right; by apply list_elem_of_further].
Qed.

Lemma zadd_elem e member score z :
  e ∈ Redis.zadd member score z -> e.1 = member \/ e ∈ z.
Proof.
  unfold Redis.zadd. intros H. apply zinsert_elem in H as [->|H]; [by left|].
  right. by apply list_elem_of_filter in H as [_ H].
Qed.

Lemma zremrangebyrank_elem e start stop z :
  e ∈ Redis.zremrangebyrank start stop z -> e ∈ z.
Proof.
  unfold Redis.zremrangebyrank. destruct (Redis.rank_range _ _ _) as [first count].
  intros H. apply elem_of_app in H as [H|H].
  - rewrite <- (take_drop first z). apply elem_of_app. by left.
  - by apply in_drop in H.
Qed.

Lemma zrange_elem s start stop z :
  s ∈ Redis.zrange start stop z -> exists e, e ∈ z /\ e.1 = s.
Proof.
  unfold Redis.zrange. destruct (Redis.rank_range _ _ _) as [first count].
  intros H. apply list_elem_of_fmap in H as (e & -> & He).
  exists e. split; [|done].
  apply in_drop with (n := first).
  rewrite <- (take_drop count (drop first z)). apply elem_of_app. by left.
Qed.



Lemma sorted_elem {A K} (leb : K -> K -> bool) (key : A -> K) x l :
  x ∈ Py.sorted leb key l -> x ∈ l.
Proof. intros H. by rewrite (sorted_perm leb key l) in H. Qed.

Lemma slice_from_elem {A} (x : A) i l : x ∈ Py.slice_from i l -> x ∈ l.
Proof. destruct (slice_from_is_drop i l) as [n ->]. apply in_drop. Qed.

Lemma group_append_elem k msg g x :
  x ∈ concat (g.*2) \/ x = msg <-> x ∈ concat ((group_append k msg g).*2).
Proof.
  induction g as [|[k0 ms] g IH]; simpl.
  - rewrite ?app_nil_r, list_elem_of_singleton, elem_of_nil. tauto.
  - destruct (decide (k0 = k)); simpl.
    + rewrite !elem_of_app, list_elem_of_singleton. tauto.
    + rewrite !elem_of_app, <- IH. tauto.
Qed.

Lemma group_by_user_elem l x : x ∈ concat ((group_by_user l).*2) -> x ∈ l.
Proof.
  unfold group_by_user.
  assert (Hgen : forall g,
            x ∈ concat ((foldl (fun g msg => group_append (sender_key msg) msg g) g l).*2) ->
            x ∈ concat (g.*2) \/ x ∈ l).
  { induction l as [|y l IH]; intros g H; simpl in H; [by left|].
    apply IH in H as [H|H]; [|right; by apply list_elem_of_further].
    apply group_append_elem in H as [H | ->]; [by left|right; apply list_elem_of_here]. }
  intros H. apply Hgen in H as [H|H]; [|done]. simpl in H. by apply elem_of_nil in H.
Qed.

Lemma limited_elem (P : Z) (g : list (Py.scalar * list message)) x :
  x ∈ flat_map (fun '(_, messages) =>
                  Py.slice_from (- P) (sort_by_timestamp messages)) g ->
  x ∈ concat (g.*2).
Proof.
  induction g as [|[k ms] g IH]; simpl; [done|].
  rewrite !elem_of_app. intros [H|H]; [left|right; auto].
  apply slice_from_elem in H. by apply sorted_elem in H.
Qed.

Lemma parse_all_elem (L : pylib) l ms m :
  parse_all L l = Some ms -> m ∈ ms -> exists s, s ∈ l /\ json_loads L s = Some m.
Proof.
  unfold parse_all. intros H. apply mapM_Some in H.
  induction H as [|s m' l ms Hs _ IH]; intros Hin.
  - by apply elem_of_nil in Hin.
  - apply elem_of_cons in Hin as [->|Hin].
    + exists s. split; [apply list_elem_of_here|done].
    + destruct (IH Hin) as (s' & Hs' & Hl). exists s'.
      split; [by apply list_elem_of_further|done].
Qed.

(** Every message of the diversity-limited view was decoded from a
    member of the room's sorted set. *)
Lemma view_elem (L : pylib) room G P r m :
  m ∈ get_chat_history_with_user_limit L room G P r ->
  exists e, e ∈ Redis.get (history_key room) r /\ json_loads L e.1 = Some m.
Proof.
  unfold get_chat_history_with_user_limit.
  destruct (parse_all L _) as [all_messages|] eqn:Hparse;
    [|intros H; by apply elem_of_nil in H].
  intros H.
  assert (Hlim : m ∈ all_messages).
  { apply group_by_user_elem, (limited_elem P).
    apply (sorted_elem String.leb timestamp_key).
    destruct (G <? _)%Z; [by apply slice_from_elem in H|done]. }
  destruct (parse_all_elem L _ _ m Hparse Hlim) as (s & Hs & Hl).
  apply zrange_elem in Hs as (e & He & <-). eauto.
Qed.

Lemma query_history_Returned m limit d rows :
  query_history m limit d = Returned rows ->
  (0 <= limit < 2 ^ 63)%Z
  /\ rows = take (Z.to_nat limit)
             (Py.sorted Z.leb ChatMessage.timestamp
                (filter (fun row => ChatMessage.meeting_id row = m) (chat_messages d))).
Proof.
  unfold query_history.
  destruct ((limit <? 0)%Z || (2 ^ 63 <=? limit)%Z)%bool eqn:E; [discriminate|].
  intros H. inversion H. split; [lia|done].
Qed.






Ltac split_emissions H :=
  repeat match type of H with
    | In _ (if ?c then _ else _) => destruct c
    | In _ (match ?x with _ => _ end) => destruct x
    | In _ (_ :: _) => destruct H as [<-|H]
    | In _ [] => destruct H
    | In _ (map _ _) => apply in_map_iff in H as (? & <- & ?)
    | In _ (flat_map _ _) => apply in_flat_map in H as (? & ? & H)
    end.

Lemma bridge_emits_notices message r e :
  In e (handle_redis_message message r) -> is_notice e.
Proof.
  intros H. unfold handle_redis_message in H. cbv zeta in H.
  split_emissions H; exact I.
Qed.

Lemma send_to_user_payload user_id event data r e :
  In e (send_to_user user_id event data r).1 -> em_payload e = data.
Proof.
  intros H. unfold send_to_user in H.
  destruct user_id as [|n|u]; simpl in H; try done.
  destruct (user_sid_map r !! u); simpl in H; [|done].
  by apply in_map_iff in H as (? & <- & ?).
Qed.

Lemma meeting_update_emits_notices (L : pylib) sid data now st e :
  In e (handle_meeting_update L sid data now st) -> is_notice e.
Proof.
  intros H. unfold handle_meeting_update in H. cbv zeta in H.
  destruct (negb _); [split_emissions H; exact I|].
  destruct (ud_meeting_id data) as [meeting_id|]; [|split_emissions H; exact I].
  destruct (Py.str_truthy meeting_id); [|split_emissions H; exact I].
  destruct (Py.truthy _); [|split_emissions H; exact I].
  destruct (send_to_user _ _ _ _) as [sent found] eqn:E.
  destruct found; [|split_emissions H; exact I].
  assert (In e (send_to_user (get_or_none (ud_user_id data)) "meeting_update"
                  (PNotification
                     {| n_meeting_id := Py.JStr meeting_id;
                        n_title := default (Py.JStr "Meeting Updated") (ud_title data);
                        n_message := default (Py.JStr "A meeting has been updated")
                                             (ud_message data);
                        n_timestamp := Py.JStr (isoformat L now +:+ "Z");
                        n_status := ud_status data;
                        n_meeting_details := ud_meeting_details data;
                        n_changes := None;
                        n_participant_id := ud_participant_id data;
                        n_user_id := None;
                        n_sender_id := sid_user_map (st_registry st) !! sid |})
                  (st_registry st)).1) as Hin by (rewrite E; exact H).
  apply send_to_user_payload in Hin. unfold is_notice. by rewrite Hin.
Qed.










(** * Further properties of the service *)

(** ** Connection registry: unregistering, round trip, fan-out *)

Lemma connections_of_resolve (r : registry) (sid uid : string) :
  symmetric r ->
  (sid ∈ connections_of uid r <-> sid_user_map r !! sid = Some uid).
Proof.
  intros Hsym. unfold connections_of. rewrite (Hsym sid uid). split.
  - intros H. destruct (user_sid_map r !! uid) as [l|]; simpl in H; [eauto|].
    by apply elem_of_nil in H.
  - intros (l & -> & H). done.
Qed.

Lemma disconnect_returns (sid : string) (r : registry) :
  registry_inv r ->
  exists r', handle_disconnect sid r = Returned r'
             /\ sid_user_map r' = delete sid (sid_user_map r).
Proof.
  intros [Hsym Hnd]. unfold handle_disconnect.
  destruct (sid_user_map r !! sid) as [u|] eqn:Hs.
  - pose proof Hs as Hs0. apply Hsym in Hs0 as (conns & Hl & Hin).
    rewrite Hl. destruct (list_remove_is_Some _ _ Hin) as [conns' ->].
    destruct conns'; eexists; split; done.
  - exists r. split; [done|]. by rewrite delete_id.
Qed.

(** X1: in a registry whose two maps agree, [handle_disconnect] returns
    without raising; afterwards the connection resolves to nothing and no
    identity lists it, while every other connection resolves as before
    and stays listed exactly where it was. *)
Theorem disconnect_unregisters (sid : string) (r : registry) :
  registry_inv r ->
  exists r',
    handle_disconnect sid r = Returned r'
    /\ sid_user_map r' !! sid = None
    /\ (forall uid, sid ∉ connections_of uid r')
    /\ (forall sid', sid' <> sid -> sid_user_map r' !! sid' = sid_user_map r !! sid')
    /\ (forall uid sid', sid' <> sid ->
          sid' ∈ connections_of uid r' <-> sid' ∈ connections_of uid r).
Proof.
  intros Hinv. destruct (disconnect_returns sid r Hinv) as (r' & Hret & Hmap).
  pose proof (registry_inv_disconnect sid r Hinv) as [Hsym' _].
  simpl in Hsym'. rewrite Hret in Hsym'. destruct Hinv as [Hsym _].
  exists r'. split; [done|].
  assert (Hgone : sid_user_map r' !! sid = None)
    by (rewrite Hmap; apply lookup_delete_eq).
  assert (Hkeep : forall sid', sid' <> sid ->
                    sid_user_map r' !! sid' = sid_user_map r !! sid').
  { intros sid' Hne. rewrite Hmap. by apply lookup_delete_ne. }
  split; [done|]. split; [|split; [done|]].
  - intros uid Hin. apply (connections_of_resolve r' sid uid Hsym') in Hin. congruence.
  - intros uid sid' Hne.
    rewrite (connections_of_resolve r' sid' uid Hsym'),
            (connections_of_resolve r sid' uid Hsym).
    by rewrite Hkeep.
Qed.

Lemma disconnect_unregisters_witness :
  exists r',
    handle_disconnect "sid_a"
      (run_ops [Connect "7" "sid_a"; Connect "7" "sid_b"] empty_registry)
    = Returned r'
    /\ sid_user_map r' !! "sid_a" = None
    /\ sid_user_map r' !! "sid_b" = Some "7".
Proof.
  destruct (disconnect_unregisters "sid_a"
              (run_ops [Connect "7" "sid_a"; Connect "7" "sid_b"] empty_registry))
    as (r' & Hret & Hgone & _ & Hkeep & _).
  - apply registry_inv_run; [apply registry_inv_empty|]. vm_compute. tauto.
  - exists r'. split; [done|]. split; [done|].
    rewrite Hkeep by discriminate. vm_compute. reflexivity.
Defined.

Lemma list_remove_app_last (sid : string) (conns : list string) :
  sid ∉ conns -> Py.list_remove sid (conns ++ [sid]) = Some conns.
Proof.
  induction conns as [|c conns IH]; intros Hnot; simpl.
  - by rewrite decide_True.
  - apply not_elem_of_cons in Hnot as [Hne Hnot].
    rewrite decide_False by done. by rewrite IH.
Qed.

(** X2: connecting a fresh connection for a non-empty identity and then
    disconnecting it gives back the registry one started from, provided
    the two maps agree and no identity is kept with an empty list. *)
Theorem connect_disconnect_round_trip (u sid : string) (r : registry) :
  registry_inv r ->
  no_empty_entry r ->
  Py.str_truthy u = true ->
  sid_user_map r !! sid = None ->
  handle_disconnect sid (register u sid r) = Returned r.
Proof.
  intros [Hsym Hnd] Hne Hu Hfresh. unfold register. rewrite Hu.
  unfold handle_disconnect. simpl. rewrite !lookup_insert_eq.
  assert (Hnot : sid ∉ default [] (user_sid_map r !! u)).
  { intros Hin. apply (connections_of_resolve r sid u Hsym) in Hin. congruence. }
  rewrite (list_remove_app_last _ _ Hnot).
  rewrite (delete_insert_id (sid_user_map r) sid u Hfresh).
  destruct r as [um sm]. simpl in *.
  destruct (um !! u) as [conns|] eqn:Hl; simpl.
  - destruct conns as [|c conns]; [by destruct (Hne u [] Hl)|].
    by rewrite insert_insert_eq, (insert_id _ _ _ Hl).
  - by rewrite (delete_insert_id um u _ Hl).
Qed.

Lemma connect_disconnect_round_trip_witness :
  handle_disconnect "sid_b" (register "7" "sid_b" (register "7" "sid_a" empty_registry))
  = Returned (register "7" "sid_a" empty_registry).
Proof.
  apply connect_disconnect_round_trip.
  - apply (registry_inv_run [Connect "7" "sid_a"] empty_registry registry_inv_empty).
    vm_compute. tauto.
  - intros uid conns H.
    destruct (decide (uid = "7")) as [->|Hne].
    + vm_compute in H. by inversion H.
    + unfold register in H. simpl in H.
      rewrite lookup_insert_ne, lookup_empty in H by done. discriminate.
  - reflexivity.
  - reflexivity.
Defined.

Lemma no_empty_entry_exec (op : registry_op) (r : registry) :
  no_empty_entry r -> no_empty_entry (exec_op op r).
Proof.
  intros Hne. destruct op as [u s|s]; simpl.
  - unfold register. destruct (Py.str_truthy u); [|done].
    intros uid conns. simpl. destruct (decide (u = uid)) as [->|Hu].
    + rewrite lookup_insert_eq. intros H; inversion H; subst.
      by destruct (default [] (user_sid_map r !! uid)).
    + rewrite lookup_insert_ne by done. apply Hne.
  - unfold handle_disconnect.
    destruct (sid_user_map r !! s) as [u|]; [|done].
    destruct (user_sid_map r !! u) as [conns|] eqn:Hl; [|exact Hne].
    destruct (Py.list_remove s conns) as [[|c conns']|]; [| |done].
    + intros uid conns0. simpl. intros H.
      apply lookup_delete_Some in H as [_ H]. by apply (Hne uid).
    + intros uid conns0. simpl. destruct (decide (u = uid)) as [->|Hu].
      * rewrite lookup_insert_eq. intros H; by inversion H.
      * rewrite lookup_insert_ne by done. apply Hne.
Qed.

Lemma no_empty_entry_run (ops : list registry_op) (r : registry) :
  no_empty_entry r -> no_empty_entry (run_ops ops r).
Proof.
  revert r. induction ops as [|op ops IH]; intros r Hne; [done|].
  simpl. apply IH. by apply no_empty_entry_exec.
Qed.

(** X3: after every sequence of connects and disconnects from the empty
    registry, no identity is kept with an empty connection list: the
    entry goes when its last connection is removed. *)
Theorem registry_keeps_no_empty_entry (ops : list registry_op) :
  no_empty_entry (run_ops ops empty_registry).
Proof.
  apply no_empty_entry_run. intros uid conns H. cbn in H.
  by rewrite lookup_empty in H.
Qed.

Lemma targets_map_emit (event : string) (data : payload) (sids : list string) :
  targets (map (fun sid => emit event data sid) sids) = sids.
Proof.
  unfold targets. induction sids as [|s sids IH]; simpl; [done|]. by f_equal.
Qed.

(** X4: after connects of fresh connections and disconnects,
    [send_to_user] addresses exactly the connections that resolve to the
    identity, each once, with the event and payload it was given, and it
    reports delivery exactly when such a connection exists. *)
Theorem send_to_user_reaches_registered (ops : list registry_op) (u event : string)
    (data : payload) :
  fresh_connects ops empty_registry ->
  let r := run_ops ops empty_registry in
  let out := (send_to_user (Py.JStr u) event data r).1 in
  let delivered := (send_to_user (Py.JStr u) event data r).2 in
  (forall sid, sid ∈ targets out <-> sid_user_map r !! sid = Some u)
  /\ NoDup (targets out)
  /\ (delivered = true <-> exists sid, sid_user_map r !! sid = Some u)
  /\ Forall (fun e => em_event e = event /\ em_payload e = data
                      /\ em_skip_sid e = None) out.
Proof.
  intros Hfresh. cbv zeta.
  destruct (registry_inv_run ops empty_registry registry_inv_empty Hfresh)
    as [Hsym Hnd].
  assert (Hne : no_empty_entry (run_ops ops empty_registry)).
  { apply no_empty_entry_run. intros uid conns H. cbn in H.
    by rewrite lookup_empty in H. }
  set (r := run_ops ops empty_registry) in *.
  unfold send_to_user.
  destruct (user_sid_map r !! u) as [sids|] eqn:Hl; simpl.
  - rewrite targets_map_emit. split; [|split; [|split]].
    + intros sid. rewrite <- (connections_of_resolve r sid u Hsym).
      unfold connections_of. by rewrite Hl.
    + by apply (Hnd u).
    + split; [intros _|done].
      destruct sids as [|s sids]; [by destruct (Hne u [] Hl)|].
      exists s. apply Hsym. exists (s :: sids). split; [done|apply list_elem_of_here].
    + apply List.Forall_forall. intros e He.
      by apply in_map_iff in He as (s & <- & _).
  - split; [|split; [|split]].
    + intros sid. rewrite <- (connections_of_resolve r sid u Hsym).
      unfold connections_of. by rewrite Hl.
    + constructor.
    + split; [done|]. intros [sid Hs].
      apply Hsym in Hs as (conns & Hc & _). congruence.
    + constructor.
Qed.

Lemma send_to_user_reaches_registered_witness :
  NoDup (targets (send_to_user (Py.JStr "7") "meeting_update" (PError "moved")
                    (run_ops [Connect "7" "sid_a"; Connect "7" "sid_b";
                              Connect "8" "sid_c"] empty_registry)).1).
Proof.
  destruct (send_to_user_reaches_registered
              [Connect "7" "sid_a"; Connect "7" "sid_b"; Connect "8" "sid_c"]
              "7" "meeting_update" (PError "moved")) as (_ & H & _).
  - vm_compute. tauto.
  - exact H.
Defined.

Lemma join_room_keeps (L : pylib) sid data st :
  st_registry (handle_join_room L sid data st).1 = st_registry st
  /\ st_redis (handle_join_room L sid data st).1 = st_redis st
  /\ st_db (handle_join_room L sid data st).1 = st_db st.
Proof.
  unfold handle_join_room. cbv zeta.
  destruct (jd_meeting_id data) as [room|]; [|done].
  destruct (Py.str_truthy room); [|done].
  by destruct (get_chat_history_with_user_limit L room 50 5 (st_redis st)).
Qed.

Lemma chat_message_keeps_registry (L : pylib) sid data now accepted st :
  st_registry (handle_chat_message L sid data now accepted st).1 = st_registry st
  /\ st_rooms (handle_chat_message L sid data now accepted st).1 = st_rooms st.
Proof.
  unfold handle_chat_message. cbv zeta.
  destruct (cd_meeting_id data) as [room|]; [|done].
  destruct (cd_message_text data) as [content|]; [|done].
  destruct (Py.str_truthy room && Py.str_truthy content)%bool; [|done].
  destruct (new_message _ _ _ _); [|done].
  destruct (session_commit _ _ _) as [d'|]; [|done].
  by destruct (last (chat_messages d')).
Qed.

Lemma history_keeps (L : pylib) meeting_id limit per_user_limit st :
  st_registry (get_meeting_chat_history L meeting_id limit per_user_limit st).2
  = st_registry st
  /\ st_db (get_meeting_chat_history L meeting_id limit per_user_limit st).2 = st_db st
  /\ st_rooms (get_meeting_chat_history L meeting_id limit per_user_limit st).2
     = st_rooms st.
Proof.
  unfold get_meeting_chat_history.
  destruct (Py.int meeting_id); [|done].
  destruct (if (0 <? per_user_limit)%Z then _ else _); [|done].
  by destruct (query_history _ _ _).
Qed.

Lemma step_resolves (L : pylib) (i : input) (st : state) (sid u : string) :
  sid_user_map (st_registry (step L i st).1) !! sid = Some u ->
  sid_user_map (st_registry st) !! sid = Some u \/ Py.str_truthy u = true.
Proof.
  destruct i; simpl.
  - destruct auth as [decoded|]; simpl; [|by left].
    unfold register. destruct (Py.str_truthy (claims_user_id decoded)) eqn:E;
      [|by left].
    simpl. destruct (decide (sid0 = sid)) as [->|Hne].
    + rewrite lookup_insert_eq. intros H; inversion H; subst. by right.
    + rewrite lookup_insert_ne by done. by left.
  - unfold handle_disconnect.
    destruct (sid_user_map (st_registry st) !! sid0) as [u0|]; [|by left].
    destruct (user_sid_map (st_registry st) !! u0) as [conns|].
    + destruct (Py.list_remove sid0 conns) as [[|c l]|]; simpl;
        try (intros H; apply lookup_delete_Some in H as [_ H]); by left.
    + simpl. intros H. apply lookup_delete_Some in H as [_ H]. by left.
  - destruct (join_room_keeps L sid0 data st) as [-> _]. by left.
  - destruct (chat_message_keeps_registry L sid0 data now accepted st) as [-> _].
    by left.
  - by left.
  - by left.
  - destruct (history_keeps L meeting_id limit per_user_limit st) as [-> _]. by left.
Qed.

(** X5: along every trace from the initial state no connection resolves
    to the empty identity; so the test [if user_id:] of the handlers and
    the flag [user_id is not None] they send as [authenticated] agree on
    every connection. *)
Theorem resolved_identity_is_never_empty (L : pylib) (inputs : list input)
    (sid : string) :
  let r := st_registry (run L inputs initial_state).1 in
  sid_user_map r !! sid <> Some ""
  /\ opt_truthy (sid_user_map r !! sid) = bool_decide (is_Some (sid_user_map r !! sid)).
Proof.
  cbv zeta.
  assert (Hgen : forall st,
            (forall s u, sid_user_map (st_registry st) !! s = Some u ->
                         Py.str_truthy u = true) ->
            forall s u, sid_user_map (st_registry (run L inputs st).1) !! s = Some u ->
                        Py.str_truthy u = true).
  { induction inputs as [|i inputs IH]; intros st Hst s u; simpl; [apply Hst|].
    destruct (step L i st) as [st1 out1] eqn:E1.
    specialize (IH st1).
    destruct (run L inputs st1) as [st2 out2] eqn:E2. simpl in *.
    apply IH. intros s' u' H'.
    assert (st1 = (step L i st).1) as -> by (by rewrite E1).
    apply step_resolves in H' as [H'|H']; [by apply (Hst s')|done]. }
  assert (Hall : forall u, sid_user_map (st_registry (run L inputs initial_state).1) !! sid
                           = Some u -> Py.str_truthy u = true).
  { intros u. apply Hgen. intros s u0 H. cbn in H. by rewrite lookup_empty in H. }
  split.
  - intros H. by apply Hall in H.
  - destruct (sid_user_map _ !! sid) as [u|] eqn:E; simpl; [|done].
    by rewrite (Hall u eq_refl).
Qed.

(** ** Event bridge: what is routed where *)

(** X6: whatever the bus delivers, every notification the bridge emits
    is a [meeting_update] or a [meeting_invitation] that carries the
    event's meeting id and is addressed either to the room named after
    that id or to a connection some identity has registered; the sender
    exclusion is never used. *)
Theorem bridge_addresses_room_or_registered (message : pubsub_message)
    (r : registry) (e : emission) :
  e ∈ handle_redis_message message r ->
  exists data meeting_id n,
    pm_data message = Some data
    /\ ev_meeting_id data = Some meeting_id
    /\ Py.truthy meeting_id = true
    /\ (em_event e = "meeting_update" \/ em_event e = "meeting_invitation")
    /\ em_payload e = PNotification n
    /\ n_meeting_id n = meeting_id
    /\ em_skip_sid e = None
    /\ (em_to e = Py.str meeting_id
        \/ exists uid conns, user_sid_map r !! uid = Some conns /\ em_to e ∈ conns).
Proof.
  intros He. apply list_elem_of_In in He. unfold handle_redis_message in He.
  destruct (negb _); [destruct He|].
  destruct (pm_data message) as [data|]; [|destruct He].
  cbv zeta in He.
  destruct (ev_meeting_id data) as [meeting_id|] eqn:Hid; simpl in He; [|destruct He].
  destruct (Py.truthy meeting_id) eqn:Ht; simpl in He; [|destruct He].
  exists data, meeting_id.
  destruct (decide (ev_event_type data = Some "meeting_created")); [destruct He|].
  destruct (decide (ev_event_type data = Some "meeting_updated")).
  { destruct He as [<-|[]]. eexists. simpl. repeat split; eauto. }
  destruct (decide (ev_event_type data = Some "meeting_deleted")).
  { destruct He as [<-|He]; [eexists; simpl; repeat split; eauto|].
    apply in_flat_map in He as (user_id & _ & He).
    destruct (user_sid_map r !! Py.str user_id) as [sids|] eqn:Hl; [|destruct He].
    apply in_map_iff in He as (sid & <- & Hsid). apply list_elem_of_In in Hsid.
    eexists. simpl. repeat split; eauto 6. }
  destruct (decide (ev_event_type data = Some "participant_added")).
  { destruct (Py.truthy (get_or_none (ev_invited_user_id data))); [|destruct He].
    destruct (user_sid_map r !! _) as [sids|] eqn:Hl; [|destruct He].
    apply in_map_iff in He as (sid & <- & Hsid). apply list_elem_of_In in Hsid.
    eexists. simpl. repeat split; eauto 6. }
  destruct (decide (ev_event_type data = Some "participant_status_updated"));
    [|destruct He].
  destruct (Py.truthy (get_or_none (ev_new_status data))
            && Py.truthy (get_or_none (ev_user_id data)))%bool; [|destruct He].
  destruct He as [<-|[]]. eexists. simpl. repeat split; eauto.
Qed.

Lemma bridge_addresses_room_or_registered_witness :
  exists data meeting_id n,
    Some Scenario.deleted_event = Some data
    /\ ev_meeting_id data = Some meeting_id
    /\ Py.truthy meeting_id = true
    /\ ("meeting_update" = "meeting_update" \/ "meeting_update" = "meeting_invitation")
    /\ PNotification
         (deleted_notification Scenario.deleted_event (Py.JInt 42)
            "A meeting you were invited to has been canceled") = PNotification n
    /\ n_meeting_id n = meeting_id
    /\ (None : option string) = None
    /\ ("sid_a" = Py.str meeting_id
        \/ exists uid conns,
             user_sid_map (st_registry Scenario.joined) !! uid = Some conns
             /\ "sid_a" ∈ conns).
Proof.
  apply (bridge_addresses_room_or_registered
           (mk_pubsub_message "message" "meeting_events" (Some Scenario.deleted_event))
           (st_registry Scenario.joined)
           (emit "meeting_update"
              (PNotification
                 (deleted_notification Scenario.deleted_event (Py.JInt 42)
                    "A meeting you were invited to has been canceled")) "sid_a")).
  vm_compute. apply list_elem_of_further, list_elem_of_here.
Defined.

(** X7: a [participant_added] event with a usable meeting id is turned
    into [meeting_invitation] pushes to exactly the registered connections
    of the invited identity, in registration order; nothing goes to the
    room, and when the invited identity is missing from the event or has
    no connection nothing is emitted at all. *)
Theorem participant_added_fanout (data : bus_event) (channel : string)
    (meeting_id : Py.scalar) (r : registry) :
  ev_event_type data = Some "participant_added" ->
  ev_meeting_id data = Some meeting_id ->
  Py.truthy meeting_id = true ->
  let invited := get_or_none (ev_invited_user_id data) in
  let out := handle_redis_message (mk_pubsub_message "message" channel (Some data)) r in
  targets out = (if Py.truthy invited then connections_of (Py.str invited) r else [])
  /\ Forall (fun e => em_event e = "meeting_invitation"
                      /\ exists n, em_payload e = PNotification n
                                   /\ n_user_id n = Some invited
                                   /\ n_meeting_id n = meeting_id) out.
Proof.
  intros Hty Hid Ht. cbv zeta. unfold handle_redis_message. simpl.
  rewrite Hid. simpl. rewrite Ht. simpl. rewrite Hty.
  repeat (case_decide; [discriminate|]).
  case_decide; [|done].
  destruct (Py.truthy (get_or_none (ev_invited_user_id data))); [|by split].
  unfold connections_of.
  destruct (user_sid_map r !! _) as [sids|]; simpl; [|by split].
  split; [apply targets_map_emit|].
  apply List.Forall_forall. intros e He.
  apply in_map_iff in He as (sid & <- & _). simpl. eauto.
Qed.

Lemma participant_added_fanout_witness :
  targets
    (handle_redis_message
       (mk_pubsub_message "message" "meeting_events"
          (Some (mk_bus_event (Some "participant_added") (Some (Py.JInt 42))
                   (Some (Py.JStr "Planning")) None None None None
                   (Some (Py.JInt 7)) None None)))
       (st_registry Scenario.joined))
  = ["sid_a"].
Proof.
  destruct (participant_added_fanout
              (mk_bus_event (Some "participant_added") (Some (Py.JInt 42))
                 (Some (Py.JStr "Planning")) None None None None
                 (Some (Py.JInt 7)) None None)
              "meeting_events" (Py.JInt 42) (st_registry Scenario.joined)
              eq_refl eq_refl eq_refl) as [H _].
  rewrite H. vm_compute. reflexivity.
Defined.

(** X8: the bridge emits nothing for a pub/sub message that is not of
    type [message], whose body does not decode, whose event has no usable
    meeting id (missing, [None], 0 or empty), or whose event type is none
    of the four it routes ([meeting_created] included). *)
Theorem bridge_drops_unroutable (message : pubsub_message) (r : registry) :
  pm_type message <> "message"
  \/ pm_data message = None
  \/ (exists data,
        pm_data message = Some data
        /\ (Py.truthy (get_or_none (ev_meeting_id data)) = false
            \/ forall t, t ∈ ["meeting_updated"; "meeting_deleted";
                              "participant_added"; "participant_status_updated"] ->
                         ev_event_type data <> Some t)) ->
  handle_redis_message message r = [].
Proof.
  intros H. unfold handle_redis_message.
  destruct (String.eqb_spec (pm_type message) "message") as [Hty|Hty]; simpl; [|done].
  destruct H as [H|[H|(data & Hd & H)]]; [done|by rewrite H|].
  rewrite Hd. cbv zeta.
  destruct (Py.truthy (get_or_none (ev_meeting_id data))); simpl;
    [|done].
  destruct H as [H|H]; [done|].
  destruct (decide (ev_event_type data = Some "meeting_created")); [done|].
  destruct (decide (ev_event_type data = Some "meeting_updated")) as [Hc|_];
    [exfalso; apply (H "meeting_updated"); [set_solver|exact Hc]|].
  destruct (decide (ev_event_type data = Some "meeting_deleted")) as [Hc|_];
    [exfalso; apply (H "meeting_deleted"); [set_solver|exact Hc]|].
  destruct (decide (ev_event_type data = Some "participant_added")) as [Hc|_];
    [exfalso; apply (H "participant_added"); [set_solver|exact Hc]|].
  destruct (decide (ev_event_type data = Some "participant_status_updated")) as [Hc|_];
    [exfalso; apply (H "participant_status_updated"); [set_solver|exact Hc]|].
  done.
Qed.

Lemma bridge_drops_unroutable_witness :
  handle_redis_message
    (mk_pubsub_message "message" "meeting_events"
       (Some (mk_bus_event (Some "meeting_deleted") (Some (Py.JInt 0)) None None
                None None (Some [Py.JInt 7]) None None None)))
    (st_registry Scenario.joined)
  = [].
Proof.
  apply bridge_drops_unroutable. right. right. eexists. split; [reflexivity|].
  left. reflexivity.
Defined.

(** X9: [meeting_updated] yields exactly one [meeting_update], addressed
    to the room; [participant_status_updated] yields exactly one, to the
    room, when both the new status and the participant id are usable, and
    nothing otherwise.  Neither reaches a connection directly. *)
Theorem room_events_are_broadcast_once (data : bus_event) (channel : string)
    (meeting_id : Py.scalar) (r : registry) :
  ev_meeting_id data = Some meeting_id ->
  Py.truthy meeting_id = true ->
  let out := handle_redis_message (mk_pubsub_message "message" channel (Some data)) r in
  (ev_event_type data = Some "meeting_updated" ->
     targets out = [Py.str meeting_id]
     /\ Forall (fun e => em_event e = "meeting_update") out)
  /\ (ev_event_type data = Some "participant_status_updated" ->
        targets out
        = (if (Py.truthy (get_or_none (ev_new_status data))
               && Py.truthy (get_or_none (ev_user_id data)))%bool
           then [Py.str meeting_id] else [])
        /\ Forall (fun e => em_event e = "meeting_update"
                            /\ exists n, em_payload e = PNotification n
                                 /\ n_status n = Some (get_or_none (ev_new_status data))
                                 /\ n_participant_id n
                                    = Some (get_or_none (ev_user_id data))) out).
Proof.
  intros Hid Ht. cbv zeta. unfold handle_redis_message. simpl.
  rewrite Hid. simpl. rewrite Ht. simpl. split; intros Hty; rewrite Hty.
  - repeat (case_decide; [discriminate|]). case_decide; [|done].
    split; [done|]. by repeat constructor.
  - repeat (case_decide; [discriminate|]). case_decide; [|done].
    destruct (Py.truthy (get_or_none (ev_new_status data))
              && Py.truthy (get_or_none (ev_user_id data)))%bool; [|by split].
    split; [done|]. repeat constructor; simpl; eauto.
Qed.

Lemma room_events_are_broadcast_once_witness :
  targets
    (handle_redis_message
       (mk_pubsub_message "message" "meeting_events"
          (Some (mk_bus_event (Some "meeting_updated") (Some (Py.JInt 42))
                   (Some (Py.JStr "Planning")) None None None None None None None)))
       (st_registry Scenario.joined))
  = ["42"].
Proof.
  destruct (room_events_are_broadcast_once
              (mk_bus_event (Some "meeting_updated") (Some (Py.JInt 42))
                 (Some (Py.JStr "Planning")) None None None None None None None)
              "meeting_events" (Py.JInt 42) (st_registry Scenario.joined)
              eq_refl eq_refl) as [H _].
  destruct (H eq_refl) as [-> _]. vm_compute. reflexivity.
Defined.

(** ** History cache: bounds, isolation of rooms, order of the view *)

Lemma zremrangebyrank_length (cap : Z) (z : Redis.zset) :
  (0 <= cap)%Z ->
  (Z.of_nat (length (Redis.zremrangebyrank 0 (- (cap + 1)) z)) <= cap)%Z.
Proof.
  intros Hcap. rewrite zremrangebyrank_trim by lia. rewrite length_drop. lia.
Qed.

(** X10: whatever the cache held before, once a message with a parsable
    timestamp is stored the room's sorted set has at most 500 entries and,
    when the message names a sender, that sender's sorted set for the room
    has at most 100. *)
Theorem store_keeps_cache_bounded (L : pylib) (room : string) (m : message)
    (r : Redis.db) (ts : string) (t : Z) :
  msg_timestamp m = Some ts ->
  iso_timestamp L ts = Some t ->
  let r' := store_message_in_redis L room m r in
  let user_id := default Py.JNone (msg_user_id m) in
  (Z.of_nat (length (Redis.get (history_key room) r')) <= 500)%Z
  /\ (Py.truthy user_id = true ->
      (Z.of_nat (length (Redis.get (user_key room user_id) r')) <= 100)%Z).
Proof.
  intros Hts Ht. cbv zeta. split.
  - rewrite (store_history_key L room m r ts t Hts Ht).
    apply (zremrangebyrank_length 500). lia.
  - intros Hu. unfold store_message_in_redis. rewrite Hts. simpl. rewrite Ht, Hu.
    rewrite redis_get_set_eq. apply (zremrangebyrank_length 100). lia.
Qed.

Lemma store_keeps_cache_bounded_witness :
  (Z.of_nat (length (Redis.get (history_key "42")
                       (store_message_in_redis Scenario.L "42" Scenario.ann4
                                               Scenario.cache))) <= 500)%Z.
Proof.
  apply (store_keeps_cache_bounded Scenario.L "42" Scenario.ann4 Scenario.cache
           "2024-05-01T10:00:12Z" 1714557612000000); reflexivity.
Defined.

Lemma history_key_inj (room room' : string) :
  history_key room = history_key room' -> room = room'.
Proof. unfold history_key. simpl. intros H. by inversion H. Qed.

(** X11: storing a message for one room leaves the history of every
    other room as it was; and a message without a timestamp, or with one
    that does not parse, leaves the whole cache as it was (the exception
    is swallowed before the first write). *)
Theorem store_touches_only_its_room (L : pylib) (room : string) (m : message)
    (r : Redis.db) :
  (forall room', room' <> room ->
     Redis.get (history_key room') (store_message_in_redis L room m r)
     = Redis.get (history_key room') r)
  /\ (msg_timestamp m ≫= iso_timestamp L = None ->
      store_message_in_redis L room m r = r).
Proof.
  split.
  - intros room' Hne. unfold store_message_in_redis.
    destruct (msg_timestamp m ≫= iso_timestamp L); [|done].
    assert (Hk : history_key room' <> history_key room)
      by (intros H; by apply history_key_inj in H).
    destruct (Py.truthy _);
      repeat first
        [ rewrite (redis_get_set_ne (history_key room') (history_key room)) by done
        | rewrite (redis_get_set_ne (history_key room') (user_key _ _))
            by apply history_key_not_user_key
        | rewrite redis_get_expire ];
      reflexivity.
  - intros H. unfold store_message_in_redis. by rewrite H.
Qed.

Section SortedOrder.
Context {A K : Type} (leb : K -> K -> bool) (key : A -> K).
Context (leb_total : forall a b, leb a b = true \/ leb b a = true).




End SortedOrder.






(** X14: for every [limit >= 1], [get_chat_history] returns at most
    [limit] messages, whatever the cache holds. *)
Theorem get_chat_history_at_most_limit (L : pylib) (room : string) (limit : Z)
    (r : Redis.db) :
  (1 <= limit)%Z ->
  (Z.of_nat (length (get_chat_history L room limit r)) <= limit)%Z.
Proof.
  intros Hl. rewrite get_chat_history_recent by done.
  set (z := Redis.get (history_key room) r).
  destruct (parse_all L _) as [ms|] eqn:Hp; simpl; [|lia].
  unfold parse_all in Hp. apply mapM_Some in Hp.
  apply Forall2_length in Hp. rewrite <- Hp, length_fmap, length_drop. lia.
Qed.

Lemma get_chat_history_at_most_limit_witness :
  (Z.of_nat (length (get_chat_history Scenario.L "42" 2 Scenario.cache)) <= 2)%Z.
Proof. apply get_chat_history_at_most_limit. lia. Defined.

(** ** Joining and leaving a room *)

Lemma view_within_limits (L : pylib) room (G P : Z) r :
  (0 < G)%Z -> (0 < P)%Z ->
  (Z.of_nat (length (get_chat_history_with_user_limit L room G P r)) <= G)%Z
  /\ forall u,
      (Z.of_nat (count_sender u (get_chat_history_with_user_limit L room G P r)) <= P)%Z.
Proof.
  intros HG HP. unfold get_chat_history_with_user_limit.
  destruct (parse_all L _) as [all_messages|];
    [|split; [simpl; lia|intros u; unfold count_sender; simpl; lia]].
  set (limited := sort_by_timestamp (flat_map _ (group_by_user all_messages))).
  assert (Hcount : forall u, (Z.of_nat (count_sender u limited) <= P)%Z).
  { intros u. unfold limited. rewrite count_sender_sorted.
    apply (limited_count u P _ HP (group_by_user_ok all_messages)). }
  destruct (G <? Z.of_nat (length limited))%Z eqn:E.
  - split; [by apply slice_from_last_length|].
    intros u. pose proof (count_sender_slice u (- G) limited).
    specialize (Hcount u). lia.
  - split; [lia|done].
Qed.

Lemma join_room_history_view (L : pylib) sid data st e room ms :
  e ∈ (handle_join_room L sid data st).2 ->
  em_payload e = PChatHistory room ms ->
  ms = get_chat_history_with_user_limit L room 50 5 (st_redis st)
  /\ jd_meeting_id data = Some room /\ ms <> [] /\ em_to e = sid
  /\ em_event e = "chat_history" /\ em_skip_sid e = None.
Proof.
  unfold handle_join_room. cbv zeta.
  destruct (jd_meeting_id data) as [room0|]; [|intros H; by apply elem_of_nil in H].
  destruct (Py.str_truthy room0); [|intros H; by apply elem_of_nil in H].
  destruct (get_chat_history_with_user_limit L room0 50 5 (st_redis st))
    as [|m0 ms0] eqn:Hview; simpl; intros He Hp.
  - apply list_elem_of_singleton in He as ->. discriminate.
  - apply elem_of_cons in He as [->|He]; [discriminate|].
    apply list_elem_of_singleton in He as ->. simpl in Hp.
    inversion Hp; subst. by rewrite Hview.
Qed.

(** X15: the only [chat_history] event [handle_join_room] can emit goes
    to the joining connection alone, for the room that was joined; it is
    the diversity-limited view of that room's cache, never empty, with at
    most 50 messages and at most 5 of any sender. *)
Theorem join_room_history_push (L : pylib) (sid : string) (data : join_data)
    (st : state) (e : emission) (room : string) (ms : list message) :
  e ∈ (handle_join_room L sid data st).2 ->
  em_payload e = PChatHistory room ms ->
  em_event e = "chat_history"
  /\ em_to e = sid
  /\ em_skip_sid e = None
  /\ jd_meeting_id data = Some room
  /\ ms = get_chat_history_with_user_limit L room 50 5 (st_redis st)
  /\ ms <> []
  /\ (length ms <= 50)%nat
  /\ forall u, (count_sender u ms <= 5)%nat.
Proof.
  unfold handle_join_room. cbv zeta.
  destruct (jd_meeting_id data) as [room0|]; [|intros H; by apply elem_of_nil in H].
  destruct (Py.str_truthy room0); [|intros H; by apply elem_of_nil in H].
  destruct (view_within_limits L room0 50 5 (st_redis st)) as [Hlen Hcount]; [lia..|].
  destruct (get_chat_history_with_user_limit L room0 50 5 (st_redis st))
    as [|m0 ms0] eqn:Hview; simpl; intros He Hp.
  - apply list_elem_of_singleton in He as ->. discriminate.
  - apply elem_of_cons in He as [->|He]; [discriminate|].
    apply list_elem_of_singleton in He as ->. simpl in Hp.
    inversion Hp; subst. repeat split; try done.
    + lia.
    + intros u. specialize (Hcount u). lia.
Qed.

Lemma join_room_history_push_witness :
  (length [Scenario.ann1; Scenario.ann2; Scenario.bob3; Scenario.ann4]%list <= 50)%nat.
Proof.
  assert (Hstate : (handle_join_room Scenario.L "sid_b"
                      (mk_join_data (Some "42") None (Some "Bob"))
                      (mk_state (st_registry Scenario.joined) Scenario.cache
                                empty_database ∅)).2
                   = [ mk_emission "user_joined"
                         (PPresence (Py.JStr "temp_user_sid_b") "Bob" "42" false)
                         "42" (Some "sid_b");
                       emit "chat_history"
                         (PChatHistory "42" [Scenario.ann1; Scenario.ann2; Scenario.bob3; Scenario.ann4])
                         "sid_b" ])
    by (vm_compute; reflexivity).
  destruct (join_room_history_push Scenario.L "sid_b"
              (mk_join_data (Some "42") None (Some "Bob"))
              (mk_state (st_registry Scenario.joined) Scenario.cache empty_database ∅)
              (emit "chat_history"
                 (PChatHistory "42" [Scenario.ann1; Scenario.ann2; Scenario.bob3; Scenario.ann4]) "sid_b")
              "42" [Scenario.ann1; Scenario.ann2; Scenario.bob3; Scenario.ann4])
    as (_ & _ & _ & _ & _ & _ & H & _).
  - rewrite Hstate. apply list_elem_of_further, list_elem_of_here.
  - reflexivity.
  - exact H.
Defined.

Lemma members_of_insert (room room' : string) (s : gset string)
    (r : registry) (c : Redis.db) (d : database) (rooms : gmap string (gset string)) :
  members_of room' (mk_state r c d (<[room := s]> rooms))
  = if decide (room = room') then s else default ∅ (rooms !! room').
Proof.
  unfold members_of. simpl. destruct (decide (room = room')) as [->|Hne].
  - by rewrite lookup_insert_eq.
  - by rewrite lookup_insert_ne.
Qed.

Lemma join_room_members (L : pylib) sid data st room :
  jd_meeting_id data = Some room ->
  Py.str_truthy room = true ->
  forall room',
    members_of room' (handle_join_room L sid data st).1
    = if decide (room = room') then {[sid]} ∪ members_of room st
      else members_of room' st.
Proof.
  intros Hroom Ht room'. unfold handle_join_room. cbv zeta. rewrite Hroom, Ht.
  destruct (get_chat_history_with_user_limit L room 50 5 (st_redis st));
    simpl; apply members_of_insert.
Qed.

(** X16: a [join_room] with a usable room id puts the connection in that
    room and in no other, leaves registry, cache and table as they were,
    and announces the effective identity to the room with the sender left
    out; without a room id (missing or empty) the handler does nothing
    and emits nothing. *)
Theorem join_room_effects (L : pylib) (sid : string) (data : join_data) (st : state) :
  let st' := (handle_join_room L sid data st).1 in
  let out := (handle_join_room L sid data st).2 in
  st_registry st' = st_registry st
  /\ st_redis st' = st_redis st
  /\ st_db st' = st_db st
  /\ match jd_meeting_id data with
     | Some room =>
         if Py.str_truthy room then
           (forall room',
              members_of room' st'
              = if decide (room = room') then {[sid]} ∪ members_of room st
                else members_of room' st)
           /\ head out
              = Some (mk_emission "user_joined"
                        (PPresence
                           (active_user_id sid (sid_user_map (st_registry st) !! sid)
                                           (jd_user_id data))
                           (default "Guest" (jd_user_name data)) room
                           (bool_decide (is_Some (sid_user_map (st_registry st) !! sid))))
                        room (Some sid))
         else st' = st /\ out = []
     | None => st' = st /\ out = []
     end.
Proof.
  cbv zeta. destruct (join_room_keeps L sid data st) as (Hr & Hc & Hd).
  split; [done|]. split; [done|]. split; [done|].
  unfold handle_join_room. cbv zeta.
  destruct (jd_meeting_id data) as [room|]; [|done].
  destruct (Py.str_truthy room); [|done].
  destruct (get_chat_history_with_user_limit L room 50 5 (st_redis st));
    simpl; (split; [|done]); intros room'; apply members_of_insert.
Qed.

(** X17: [leave_room] mirrors [join_room]: it announces [user_left] for
    the same identity, name and room, again with the sender left out; and
    joining a room the connection was not in and leaving it again gives
    back the membership of every room, with registry, cache and table
    untouched throughout. *)
Theorem join_then_leave_round_trip (L : pylib) (sid room : string)
    (data : join_data) (st : state) :
  jd_meeting_id data = Some room ->
  Py.str_truthy room = true ->
  sid ∉ members_of room st ->
  let joined := (handle_join_room L sid data st).1 in
  let back := (handle_leave_room sid data joined).1 in
  (forall room', members_of room' back = members_of room' st)
  /\ st_registry back = st_registry st
  /\ st_redis back = st_redis st
  /\ st_db back = st_db st
  /\ (handle_leave_room sid data joined).2
     = [mk_emission "user_left"
          (PPresence
             (active_user_id sid (sid_user_map (st_registry st) !! sid) (jd_user_id data))
             (default "Guest" (jd_user_name data)) room
             (bool_decide (is_Some (sid_user_map (st_registry st) !! sid))))
          room (Some sid)].
Proof.
  intros Hroom Ht Hnot. cbv zeta.
  destruct (join_room_keeps L sid data st) as (Hr & Hc & Hd).
  pose proof (join_room_members L sid data st room Hroom Ht) as Hmem.
  unfold handle_leave_room. rewrite Hroom, Ht. simpl. rewrite Hr.
  split; [|by rewrite Hc, Hd].
  intros room'. rewrite members_of_insert.
  destruct (decide (room = room')) as [<-|Hne].
  - rewrite Hmem, decide_True by done. apply set_eq. intros x.
    rewrite elem_of_difference, elem_of_union, !elem_of_singleton.
    split; [intros [[->|H] Hx]; done|].
    intros H. split; [by right|]. intros ->. done.
  - specialize (Hmem room'). rewrite decide_False in Hmem by done.
    unfold members_of in Hmem. by rewrite Hmem.
Qed.

Lemma join_then_leave_round_trip_witness :
  members_of "42"
    (handle_leave_room "sid_b" (mk_join_data (Some "42") None (Some "Bob"))
       (handle_join_room Scenario.L "sid_b"
          (mk_join_data (Some "42") None (Some "Bob")) Scenario.joined).1).1
  = members_of "42" Scenario.joined.
Proof.
  destruct (join_then_leave_round_trip Scenario.L "sid_b" "42"
              (mk_join_data (Some "42") None (Some "Bob")) Scenario.joined
              eq_refl eq_refl) as [H _].
  - vm_compute. intros H. discriminate.
  - apply H.
Defined.

(** ** Effective identity *)

(** X18: for a connection that resolves to a non-empty identity, the
    [user_id] a client puts in its payload has no effect: [join_room],
    [leave_room] and [chat_message] behave as they do with any other
    [user_id] in the payload. *)
Theorem payload_identity_is_ignored_when_authenticated (L : pylib)
    (sid u : string) (st : state) (x y : option Py.scalar) :
  sid_user_map (st_registry st) !! sid = Some u ->
  Py.str_truthy u = true ->
  (forall room name,
     handle_join_room L sid (mk_join_data room x name) st
     = handle_join_room L sid (mk_join_data room y name) st)
  /\ (forall room name,
        handle_leave_room sid (mk_join_data room x name) st
        = handle_leave_room sid (mk_join_data room y name) st)
  /\ (forall room text name now accepted,
        handle_chat_message L sid (mk_chat_data room text x name) now accepted st
        = handle_chat_message L sid (mk_chat_data room text y name) now accepted st).
Proof.
  intros Hs Hu.
  assert (Hact : forall d, active_user_id sid (Some u) d = Py.JStr u).
  { intros d. unfold active_user_id. by rewrite Hu. }
  split; [|split].
  - intros room name. unfold handle_join_room. simpl. by rewrite Hs, !Hact.
  - intros room name. unfold handle_leave_room. simpl. by rewrite Hs, !Hact.
  - intros room text name now accepted. unfold handle_chat_message. simpl.
    by rewrite Hs, !Hact.
Qed.

Lemma payload_identity_is_ignored_when_authenticated_witness :
  handle_chat_message Scenario.L "sid_a"
    (mk_chat_data (Some "42") (Some "hello") (Some (Py.JInt 99)) (Some "Bob"))
    1714557600000000 true Scenario.joined
  = handle_chat_message Scenario.L "sid_a"
      (mk_chat_data (Some "42") (Some "hello") None (Some "Bob"))
      1714557600000000 true Scenario.joined.
Proof.
  destruct (payload_identity_is_ignored_when_authenticated Scenario.L "sid_a" "7"
              Scenario.joined (Some (Py.JInt 99)) None eq_refl eq_refl)
    as (_ & _ & H).
  apply H.
Defined.

(** ** Sending a chat message *)

(** X19: when the room id converts to an integer, the text is not empty,
    the effective identity is a guest id or converts to an integer, the
    session has nothing pending and the database accepts the commit,
    [handle_chat_message] appends exactly one row (next serial id, the
    clock as timestamp, the guest id with the placeholder 1 for a guest,
    the converted id otherwise), stores the row's dict with the
    [authenticated] flag in the room's cache, and emits exactly one event:
    a [chat_message] with that dict to the room. *)
Theorem chat_message_is_stored_and_broadcast (L : pylib) (sid room content : string)
    (data : chat_data) (now : Z) (st : state) (mid : Z) :
  cd_meeting_id data = Some room ->
  cd_message_text data = Some content ->
  Py.str_truthy room = true ->
  Py.str_truthy content = true ->
  Py.int room = Some mid ->
  session_new (st_db st) = [] ->
  let resolved := sid_user_map (st_registry st) !! sid in
  let active := active_user_id sid resolved (cd_user_id data) in
  is_guest active = true \/ is_Some (int_of_scalar active) ->
  let saved :=
    ChatMessage.mk (next_id (st_db st)) mid
      (if is_guest active then Some 1 else int_of_scalar active)
      (if is_guest active then Some (Py.str active) else None)
      (Some (default "Guest" (cd_user_name data))) content now in
  let message_data :=
    set_authenticated (ChatMessage.to_dict L saved)
                      (Some (bool_decide (is_Some resolved))) in
  handle_chat_message L sid data now true st
  = (mk_state (st_registry st)
              (store_message_in_redis L room message_data (st_redis st))
              (mk_database (chat_messages (st_db st) ++ [saved]) []
                           (next_id (st_db st) + 1))
              (st_rooms st),
     [emit "chat_message" (PChatMessage message_data) room]).
Proof.
  intros Hroom Htext Hr Hc Hmid Hsess. cbv zeta. intros Hid.
  unfold handle_chat_message. cbv zeta. rewrite Hroom, Htext, Hr, Hc. simpl.
  unfold new_message. rewrite Hmid. simpl.
  destruct (is_guest _) eqn:Hg; simpl.
  - unfold session_commit, session_add. simpl. rewrite Hsess. simpl.
    by rewrite last_snoc.
  - destruct Hid as [Hid|[uid Hid]]; [discriminate|]. rewrite Hid. simpl.
    unfold session_commit, session_add. simpl. rewrite Hsess. simpl.
    by rewrite last_snoc.
Qed.

Lemma chat_message_is_stored_and_broadcast_witness :
  (handle_chat_message Scenario.L "sid_x"
     (mk_chat_data (Some "42") (Some "hello") (Some (Py.JStr "guest_ann")) (Some "Ann"))
     1714557600000000 true Scenario.joined).2
  = [emit "chat_message" (PChatMessage Scenario.ann1) "42"].
Proof.
  rewrite (chat_message_is_stored_and_broadcast Scenario.L "sid_x" "42" "hello"
             (mk_chat_data (Some "42") (Some "hello") (Some (Py.JStr "guest_ann"))
                           (Some "Ann"))
             1714557600000000 Scenario.joined 42
             eq_refl eq_refl eq_refl eq_refl eq_refl eq_refl (or_introl eq_refl)).
  vm_compute. reflexivity.
Defined.

(** ** Client-initiated notifications *)

(** X20: a [meeting_update] from a connection that resolves to a
    non-empty identity, with a usable meeting id, is sent as
    [meeting_update] events that all carry the meeting id and the sender's
    identity: to every connection of the named target when the target is a
    registered identity, and otherwise (no target, a target that is not a
    string, or one that is not registered) as a single event to the
    meeting's room. *)
Theorem meeting_update_targeting (L : pylib) (sid u meeting_id : string)
    (data : update_data) (now : Z) (st : state) :
  sid_user_map (st_registry st) !! sid = Some u ->
  Py.str_truthy u = true ->
  ud_meeting_id data = Some meeting_id ->
  Py.str_truthy meeting_id = true ->
  let out := handle_meeting_update L sid data now st in
  targets out
  = match get_or_none (ud_user_id data) with
    | Py.JStr target =>
        match user_sid_map (st_registry st) !! target with
        | Some sids => if Py.str_truthy target then sids else [meeting_id]
        | None => [meeting_id]
        end
    | _ => [meeting_id]
    end
  /\ Forall (fun e => em_event e = "meeting_update"
                      /\ em_skip_sid e = None
                      /\ exists n, em_payload e = PNotification n
                                   /\ n_meeting_id n = Py.JStr meeting_id
                                   /\ n_sender_id n = Some u) out.
Proof.
  intros Hs Hu Hm Ht. cbv zeta. unfold handle_meeting_update. cbv zeta.
  rewrite Hs. simpl. rewrite Hu, Hm, Ht. simpl.
  destruct (get_or_none (ud_user_id data)) as [|n|target]; simpl.
  - split; [done|]. repeat constructor; simpl; eauto.
  - destruct (negb (n =? 0)%Z); simpl; (split; [done|]);
      repeat constructor; simpl; eauto.
  - destruct (Py.str_truthy target) eqn:Htarget; simpl.
    + change (negb (String.eqb target "")) with (Py.str_truthy target).
      rewrite Htarget.
      destruct (user_sid_map (st_registry st) !! target) as [sids|]; simpl.
      * split; [apply targets_map_emit|].
        apply List.Forall_forall. intros e He.
        apply in_map_iff in He as (s & <- & _). simpl.
        split; [done|]. split; [done|]. eauto.
      * split; [done|]. repeat constructor; simpl; eauto.
    + change (negb (String.eqb target "")) with (Py.str_truthy target).
      rewrite Htarget.
      destruct (user_sid_map (st_registry st) !! target); simpl;
        (split; [done|]); repeat constructor; simpl; eauto.
Qed.

Lemma meeting_update_targeting_witness :
  targets (handle_meeting_update Scenario.L "sid_a"
             (mk_update_data (Some "42") (Some (Py.JStr "8")) None None None None None)
             1714557600000000 Scenario.joined)
  = ["42"].
Proof.
  destruct (meeting_update_targeting Scenario.L "sid_a" "7" "42"
              (mk_update_data (Some "42") (Some (Py.JStr "8")) None None None None None)
              1714557600000000 Scenario.joined eq_refl eq_refl eq_refl eq_refl)
    as [H _].
  rewrite H. vm_compute. reflexivity.
Defined.

(** X21: [handle_meeting_invitation] answers a connection that resolves
    to no identity with a single [invitation_error] to that connection,
    and a connection that names no usable meeting id or no usable target
    likewise; in both cases nothing is sent to anyone else and nothing is
    broadcast. *)
Theorem meeting_invitation_guards (L : pylib) (sid : string)
    (data : invitation_data) (now : Z) (st : state) :
  opt_truthy (sid_user_map (st_registry st) !! sid) = false
  \/ opt_truthy (iv_meeting_id data) = false
  \/ Py.truthy (get_or_none (iv_user_id data)) = false ->
  exists reason,
    handle_meeting_invitation L sid data now st
    = [Emit (emit "invitation_error" (PError reason) sid)].
Proof.
  intros H. unfold handle_meeting_invitation. cbv zeta.
  destruct (opt_truthy (sid_user_map (st_registry st) !! sid)); simpl; [|eauto].
  destruct H as [H|H]; [discriminate|].
  destruct (iv_meeting_id data) as [meeting_id|]; simpl in *; [|eauto].
  destruct (Py.str_truthy meeting_id); simpl; [|eauto].
  destruct H as [H|H]; [discriminate|]. rewrite H. simpl. eauto.
Qed.

Lemma meeting_invitation_guards_witness :
  exists reason,
    handle_meeting_invitation Scenario.L "sid_x"
      (mk_invitation_data (Some "42") (Some (Py.JStr "7")) None None None)
      1714557600000000 Scenario.joined
    = [Emit (emit "invitation_error" (PError reason) "sid_x")].
Proof.
  apply meeting_invitation_guards. left. reflexivity.
Defined.

(** X22: an invitation from an authenticated connection with a usable
    meeting id and target is delivered as [meeting_invitation]: when the
    target is a registered identity, by one direct event per connection of
    that identity and no broadcast; otherwise by exactly one broadcast to
    every connection. *)
Theorem meeting_invitation_targeting (L : pylib) (sid u meeting_id : string)
    (data : invitation_data) (now : Z) (st : state) (target : Py.scalar) :
  sid_user_map (st_registry st) !! sid = Some u ->
  Py.str_truthy u = true ->
  iv_meeting_id data = Some meeting_id ->
  Py.str_truthy meeting_id = true ->
  iv_user_id data = Some target ->
  Py.truthy target = true ->
  let invitation :=
    PNotification (invitation_notification L meeting_id target data now (Some u)) in
  handle_meeting_invitation L sid data now st
  = match target with
    | Py.JStr t =>
        match user_sid_map (st_registry st) !! t with
        | Some sids => map (fun s => Emit (emit "meeting_invitation" invitation s)) sids
        | None => [EmitAll "meeting_invitation" invitation]
        end
    | _ => [EmitAll "meeting_invitation" invitation]
    end.
Proof.
  intros Hs Hu Hm Ht Hd Htarget. cbv zeta.
  unfold handle_meeting_invitation. cbv zeta.
  rewrite Hs. simpl. rewrite Hu, Hm, Hd. simpl. rewrite Ht, Htarget. simpl.
  destruct target as [|n|t]; simpl; try done.
  destruct (user_sid_map (st_registry st) !! t) as [sids|]; simpl; [|done].
  induction sids as [|s sids IH]; simpl; [done|]. by f_equal.
Qed.

Lemma meeting_invitation_targeting_witness :
  handle_meeting_invitation Scenario.L "sid_a"
    (mk_invitation_data (Some "42") (Some (Py.JStr "8")) None None None)
    1714557600000000 Scenario.joined
  = [EmitAll "meeting_invitation"
       (PNotification
          (invitation_notification Scenario.L "42" (Py.JStr "8")
             (mk_invitation_data (Some "42") (Some (Py.JStr "8")) None None None)
             1714557600000000 (Some "7")))].
Proof.
  rewrite (meeting_invitation_targeting Scenario.L "sid_a" "7" "42"
             (mk_invitation_data (Some "42") (Some (Py.JStr "8")) None None None)
             1714557600000000 Scenario.joined (Py.JStr "8")
             eq_refl eq_refl eq_refl eq_refl eq_refl eq_refl).
  vm_compute. reflexivity.
Defined.

(** ** The history endpoint *)








(** ** Messages stay within their meeting *)

Lemma store_history_members (L : pylib) room room' m r e :
  e ∈ Redis.get (history_key room') (store_message_in_redis L room m r) ->
  (room' = room /\ e.1 = json_dumps L m) \/ e ∈ Redis.get (history_key room') r.
Proof.
  intros He. destruct (decide (room' = room)) as [->|Hne].
  - destruct (msg_timestamp m ≫= iso_timestamp L) as [t|] eqn:Hparse.
    + destruct (msg_timestamp m) as [ts|] eqn:Hts; [|discriminate].
      simpl in Hparse.
      rewrite (store_history_key L room m r ts t Hts Hparse) in He.
      apply zremrangebyrank_elem, zadd_elem in He as [He|He]; auto.
    + unfold store_message_in_redis in He. rewrite Hparse in He. by right.
  - right. unfold store_message_in_redis in He.
    destruct (msg_timestamp m ≫= iso_timestamp L); [|done].
    assert (Hk : history_key room' <> history_key room)
      by (intros H; by apply history_key_inj in H).
    revert He.
    destruct (Py.truthy _);
      repeat first
        [ rewrite (redis_get_set_ne (history_key room') (history_key room)) by done
        | rewrite (redis_get_set_ne (history_key room') (user_key _ _))
            by apply history_key_not_user_key
        | rewrite redis_get_expire ];
      done.
Qed.

Lemma store_all_history_members (L : pylib) room room' ms r e :
  e ∈ Redis.get (history_key room')
        (foldl (fun r message => store_message_in_redis L room message r) r ms) ->
  (room' = room /\ exists m, m ∈ ms /\ e.1 = json_dumps L m)
  \/ e ∈ Redis.get (history_key room') r.
Proof.
  revert r. induction ms as [|m ms IH]; intros r He; simpl in He; [by right|].
  apply IH in He as [(-> & m' & Hm' & He)|He].
  - left. split; [done|]. exists m'. split; [by apply list_elem_of_further|done].
  - apply store_history_members in He as [[-> He]|He]; [|by right].
    left. split; [done|]. exists m. split; [apply list_elem_of_here|done].
Qed.

Lemma rooms_isolated_same (L : pylib) st st' :
  st_db st' = st_db st -> st_redis st' = st_redis st ->
  rooms_isolated L st -> rooms_isolated L st'.
Proof. unfold rooms_isolated. by intros -> ->. Qed.

Lemma notices_isolated (L : pylib) out :
  (forall e, In e out -> is_notice e) -> Forall (emission_isolated L) out.
Proof.
  intros H. apply List.Forall_forall. intros e He. specialize (H e He).
  unfold is_notice in H. unfold emission_isolated. by destruct (em_payload e).
Qed.

Lemma step_isolated (L : pylib) (i : input) (st : state) :
  rooms_isolated L st ->
  rooms_isolated L (step L i st).1 /\ Forall (emission_isolated L) (step L i st).2.
Proof.
  intros Hinv. pose proof Hinv as [Hsess Hcache].
  assert (Hquiet : forall st' out,
            st_db st' = st_db st -> st_redis st' = st_redis st ->
            (forall e, In e out -> is_notice e) ->
            rooms_isolated L st' /\ Forall (emission_isolated L) out).
  { intros st' out Hdb Hredis Hout. split.
    - by apply (rooms_isolated_same L st).
    - by apply notices_isolated. }
  destruct i; simpl.
  - by apply Hquiet.
  - by apply Hquiet.
  - (* join_room *)
    destruct (join_room_keeps L sid data st) as (_ & Hc & Hd).
    split; [by apply (rooms_isolated_same L st)|].
    apply Forall_forall. intros e He. unfold emission_isolated.
    destruct (em_payload e) as [| |room ms| |] eqn:Hp; try done.
    + exfalso. revert He Hp. unfold handle_join_room. cbv zeta.
      destruct (jd_meeting_id data) as [room0|]; [|intros H; by apply elem_of_nil in H].
      destruct (Py.str_truthy room0); [|intros H; by apply elem_of_nil in H].
      destruct (get_chat_history_with_user_limit L room0 50 5 (st_redis st));
        simpl; intros He Hp;
        repeat (apply elem_of_cons in He as [->|He]; [discriminate|]);
        by apply elem_of_nil in He.
    + destruct (join_room_history_view L sid data st e room ms He Hp) as [-> _].
      apply Forall_forall. intros m Hm.
      apply view_elem in Hm as (e0 & He0 & Hl).
      destruct (Hcache _ _ He0) as (d & Hd0 & Hint).
      exists d. by rewrite <- Hd0.
  - (* chat_message *)
    unfold handle_chat_message. cbv zeta.
    assert (Hfailed : forall d reason,
              rooms_isolated L
                (mk_state (st_registry st) (st_redis st) (session_rollback d) (st_rooms st))
              /\ Forall (emission_isolated L) [emit "message_error" (PError reason) sid]).
    { intros d reason. split; [by split|]. by repeat constructor. }
    assert (Hmissing : forall reason,
              rooms_isolated L st
              /\ Forall (emission_isolated L) [emit "message_error" (PError reason) sid]).
    { intros reason. split; [done|]. by repeat constructor. }
    destruct (cd_meeting_id data) as [room|]; [|apply Hmissing].
    destruct (cd_message_text data) as [content|]; [|apply Hmissing].
    destruct (Py.str_truthy room && Py.str_truthy content)%bool; [|apply Hmissing].
    destruct (new_message _ _ _ _) as [row|] eqn:Hrow; [|apply Hfailed].
    destruct accepted; [|apply Hfailed].
    unfold session_commit, session_add. simpl. rewrite Hsess. simpl.
    rewrite last_snoc. simpl.
    assert (Hmid : Py.int room = Some (ChatMessage.meeting_id row)).
    { unfold new_message in Hrow.
      destruct (is_guest _); destruct (Py.int room) as [mid|]; simpl in Hrow;
        try discriminate.
      - by inversion Hrow.
      - destruct (int_of_scalar _); simpl in Hrow; [|discriminate]. by inversion Hrow. }
    split.
    + split; [done|]. simpl. intros room' e He.
      apply store_history_members in He as [[-> He]|He]; [|by apply Hcache].
      eexists. split; [exact He|]. done.
    + repeat constructor. unfold emission_isolated. simpl. done.
  - apply Hquiet; [done|done|]. apply meeting_update_emits_notices.
  - apply Hquiet; [done|done|]. apply bridge_emits_notices.
  - (* history endpoint *)
    split; [|constructor].
    unfold get_meeting_chat_history.
    destruct (Py.int meeting_id) as [mid|] eqn:Hmid; [|done].
    destruct (if (0 <? per_user_limit)%Z then _ else _); [|done].
    destruct (query_history _ _ _) as [rows|] eqn:Hq; [|done].
    simpl. split; [done|]. simpl. intros room' e He.
    apply store_all_history_members in He as [(-> & m & Hm & He)|He];
      [|by apply Hcache].
    apply list_elem_of_In, in_map_iff in Hm as (row & <- & Hrow).
    eexists. split; [exact He|]. simpl. rewrite Hmid. f_equal.
    apply query_history_Returned in Hq as [_ ->]. apply list_elem_of_In in Hrow.
    assert (Hs : row ∈ Py.sorted Z.leb ChatMessage.timestamp
                   (filter (fun row => ChatMessage.meeting_id row = mid)
                           (chat_messages (st_db st)))).
    { rewrite <- (take_drop (Z.to_nat limit) (Py.sorted _ _ _)).
      apply elem_of_app. by left. }
    apply sorted_elem in Hs. apply list_elem_of_filter in Hs as [Hm _]. done.
Qed.

Lemma run_isolated (L : pylib) (inputs : list input) (st : state) :
  rooms_isolated L st ->
  rooms_isolated L (run L inputs st).1 /\ Forall (emission_isolated L) (run L inputs st).2.
Proof.
  revert st. induction inputs as [|i inputs IH]; intros st Hinv; simpl.
  - split; [done|constructor].
  - destruct (step_isolated L i st Hinv) as [Hinv1 Hout1].
    destruct (step L i st) as [st1 out1]. simpl in *.
    destruct (IH st1 Hinv1) as [Hinv2 Hout2].
    destruct (run L inputs st1) as [st2 out2]. simpl in *.
    split; [done|]. apply Forall_app. by split.
Qed.

(** X25: along every trace from the initial state, every member cached
    for a room is the JSON text of a message whose [meeting_id] is the
    integer the room name converts to; every [chat_message] event goes to
    the room of the message's own meeting; and every message of a
    [chat_history] sent for a room was read back from the JSON text of a
    message of that meeting.  No message crosses into another meeting's
    room. *)
Theorem messages_stay_within_their_meeting (L : pylib) (inputs : list input) :
  let st := (run L inputs initial_state).1 in
  let out := (run L inputs initial_state).2 in
  (forall room e, e ∈ Redis.get (history_key room) (st_redis st) ->
                  room_member_ok L room e.1)
  /\ Forall (emission_isolated L) out.
Proof.
  cbv zeta.
  assert (Hinit : rooms_isolated L initial_state).
  { split; [done|]. intros room e He. unfold Redis.get in He. simpl in He.
    rewrite lookup_empty in He. by apply elem_of_nil in He. }
  destruct (run_isolated L inputs initial_state Hinit) as [[_ Hcache] Hout].
  by split.
Qed.
